(** * Demonstration notebooks of the [unstructured] repository

    The repository's own code is three notebooks:
    - [examples/elastic-search/load-into-es.ipynb]  (module [Elastic]),
    - the MySQL loading notebook                     (module [MySQL]),
    - the SEC sentiment-analysis notebook            (module [SEC]).

    Every cell is a short straight-line Python script around calls into
    libraries.  The embedding keeps the Python that the notebooks
    themselves contain (loops, dictionary updates, comparisons, sorts,
    comprehensions) as Rocq functions, and takes every library or network
    call as a field of a record of externals, so that each statement below
    holds whatever those calls answer.  A run is a function on an explicit
    state that holds the store of dictionary objects and the log of the
    calls that left the notebook. *)

From Stdlib Require Import QArith Qround ZArith String List Sorting.Sorted
  Sorting.Permutation Lia Lqa.
From stdpp Require Import gmap strings list fin_maps.

Close Scope Q_scope.
Open Scope string_scope.

(** ** Python values, exceptions and the notebook monad *)

Module Py.

(** The values found in element dictionaries and JSON documents.  A
    Python [float] is a rational here: every float the notebooks compare
    or sort is a finite score rounded to four decimal places, on which
    comparison of the doubles and of the rationals they denote agree. *)
#[warnings="-register-all"] Inductive value : Type :=
| VNone
| VStr (s : string)
| VInt (z : Z)
| VFloat (q : Q)
| VList (items : list value)
| VDict (kvs : list (string * value)).

Inductive exn : Type :=
| KeyError (key : string)
| IndexError
| TypeError (what : string)
| AttributeError (name : string)
| ValueError (what : string)
| LibraryError (lib : string) (msg : string).

Inductive result (A : Type) : Type :=
| Ok (a : A)
| Raise (e : exn).
Arguments Ok {A} a.
Arguments Raise {A} e.

Definition result_bind {A B} (r : result A) (k : A -> result B) : result B :=
  match r with
  | Ok a => k a
  | Raise e => Raise e
  end.

(** The state of a notebook run over the calls [C] that leave the
    notebook: the store of dictionary objects, the next free address, and
    the log of the calls made so far, oldest first, each with the
    exception it raised, if any. *)
Record state (C : Type) : Type := State {
  heap : gmap positive (gmap string value);
  next : positive;
  log : list (C * option exn)
}.
Arguments State {C} heap next log.
Arguments heap {C} s.
Arguments next {C} s.
Arguments log {C} s.

Definition initial {C} : state C := State ∅ 1%positive [].

(** A cell is a state transformer that returns a value or raises; the
    state it leaves when it raises is the state at the [raise]. *)
Definition M (C A : Type) : Type := state C -> result A * state C.

Definition ret {C A} (a : A) : M C A := fun s => (Ok a, s).

Definition raise {C A} (e : exn) : M C A := fun s => (Raise e, s).

Definition bind {C A B} (m : M C A) (k : A -> M C B) : M C B :=
  fun s => match m s with
           | (Ok a, s') => k a s'
           | (Raise e, s') => (Raise e, s')
           end.

(** The outcome of Python's own operations (indexing, comparison). *)
Definition lift {C A} (r : result A) : M C A := fun s => (r, s).

Definition outcome {A} (r : result A) : option exn :=
  match r with
  | Ok _ => None
  | Raise e => Some e
  end.

(** A call [c] that leaves the notebook.  What it answers is up to the
    library, which may look at everything that was called before; the
    call is logged with its outcome. *)
Definition extcall {C A} (c : C) (answer : list (C * option exn) -> result A)
  : M C A :=
  fun s => let r := answer (log s) in
           (r, State (heap s) (next s) (log s ++ [(c, outcome r)])).

(** The calls that [m] makes when it runs from [s]: what it adds to the
    log. *)
Definition journal {C A} (m : M C A) (s : state C) : list (C * option exn) :=
  drop (length (log s)) (log (snd (m s))).

(** [m] adds to the log, and [P] holds of what it adds and of its
    result. *)
Definition emits {C A} (m : M C A)
  (P : list (C * option exn) -> result A -> Prop) : Prop :=
  forall s : state C, exists new : list (C * option exn),
    log (snd (m s)) = (log s ++ new)%list /\ P new (fst (m s)).

(** No call of [new] raised, or the last one raised [e] and [e] is the
    outcome [o] of the run. *)
Definition uncaught {C} (new : list (C * option exn)) (o : option exn) : Prop :=
  Forall (fun entry => snd entry = None) new \/
  exists (init : list (C * option exn)) (c : C) (e : exn),
    new = (init ++ [(c, Some e)])%list /\
    Forall (fun entry => snd entry = None) init /\
    o = Some e.

(** Whatever a call of [m] raises ends the run of [m] and is its
    outcome. *)
Definition propagates {C A} (m : M C A) : Prop :=
  emits m (fun new r => uncaught new (outcome r)).

(** The reading of the same for one run: a call of the run of [m] from
    [s] that raised [e] is the last call of that run, which raises [e]. *)
Definition never_caught {C A} (m : M C A) : Prop :=
  forall (s : state C) (before after : list (C * option exn)) (c : C) (e : exn),
    journal m s = (before ++ (c, Some e) :: after)%list ->
    after = [] /\ fst (m s) = Raise e.

(** A new dictionary object. *)
Definition alloc {C} (d : gmap string value) : M C positive :=
  fun s => (Ok (next s),
            State (<[next s := d]> (heap s)) (Pos.succ (next s)) (log s)).

(** The dictionary that a reference points to. *)
Definition deref {C} (r : positive) : M C (gmap string value) :=
  fun s => (Ok (heap s !!! r), s).

(** [r[k] = v], in place. *)
Definition setitem {C} (r : positive) (k : string) (v : value) : M C unit :=
  fun s => (Ok tt,
            State (<[r := <[k := v]> (heap s !!! r)]> (heap s)) (next s) (log s)).

(** [for x in l: body x] *)
Fixpoint for_each {C A} (body : A -> M C unit) (l : list A) : M C unit :=
  match l with
  | [] => ret tt
  | x :: l' => bind (body x) (fun _ => for_each body l')
  end.

(** A loop that appends to a list: [acc = []; for x in l: acc.append(body x)],
    or the comprehension [[body x for x in l]]. *)
Fixpoint for_append {C A B} (body : A -> M C B) (acc : list B) (l : list A)
  : M C (list B) :=
  match l with
  | [] => ret acc
  | x :: l' => bind (body x) (fun b => for_append body (acc ++ [b]) l')
  end.

(** The same loop with [acc.extend(body x)]. *)
Fixpoint for_extend {C A B} (body : A -> M C (list B)) (acc : list B)
  (l : list A) : M C (list B) :=
  match l with
  | [] => ret acc
  | x :: l' => bind (body x) (fun bs => for_extend body (acc ++ bs) l')
  end.

(** A loop that updates a local variable: [for x in l: acc = body acc x]. *)
Fixpoint for_fold {C A B} (body : B -> A -> M C B) (acc : B) (l : list A)
  : M C B :=
  match l with
  | [] => ret acc
  | x :: l' => bind (body acc x) (fun acc' => for_fold body acc' l')
  end.

(** A comprehension [[f x for x in l]] whose [f] may raise. *)
Fixpoint comprehension {A B} (f : A -> result B) (l : list A)
  : result (list B) :=
  match l with
  | [] => Ok []
  | x :: l' => result_bind (f x) (fun b =>
               result_bind (comprehension f l') (fun bs => Ok (b :: bs)))
  end.

(** [enumerate(l, start)] *)
Fixpoint enumerate {A} (start : nat) (l : list A) : list (nat * A) :=
  match l with
  | [] => []
  | x :: l' => (start, x) :: enumerate (S start) l'
  end.

(** [d[k]] on a dictionary. *)
Definition getitem (d : gmap string value) (k : string) : result value :=
  match d !! k with
  | Some v => Ok v
  | None => Raise (KeyError k)
  end.

(** [l[i]] on a list. *)
Definition list_item {A} (l : list A) (i : nat) : result A :=
  match l !! i with
  | Some x => Ok x
  | None => Raise IndexError
  end.

(** Comparison of two floats, as [<] and [==] of Python on finite
    floats. *)
Definition float_lt (x y : Q) : bool :=
  match (x ?= y)%Q with Lt => true | _ => false end.

Definition float_eq (x y : Q) : bool :=
  match (x ?= y)%Q with Eq => true | _ => false end.

(** The nearest integer, ties to the even one. *)
Definition round_half_even (x : Q) : Z :=
  let f := Qfloor x in
  match ((x - inject_Z f) * 2 ?= 1)%Q with
  | Lt => f
  | Gt => (f + 1)%Z
  | Eq => if Z.even f then f else (f + 1)%Z
  end.

(** [round(x, 4)] of Python: the decimal with four digits nearest to
    [x], ties to even. *)
Definition round4 (x : Q) : Q :=
  (inject_Z (round_half_even (x * 10000)) / 10000)%Q.

(** [v == s] for a string [s]: only the same string is equal to it. *)
Definition eq_str (v : value) (s : string) : bool :=
  match v with
  | VStr s' => String.eqb s' s
  | _ => false
  end.

Definition is_upper (c : Ascii.ascii) : bool :=
  let n := Ascii.nat_of_ascii c in ((65 <=? n) && (n <=? 90))%nat.

Definition is_lower (c : Ascii.ascii) : bool :=
  let n := Ascii.nat_of_ascii c in ((97 <=? n) && (n <=? 122))%nat.

Definition upper (c : Ascii.ascii) : Ascii.ascii :=
  if is_lower c then Ascii.ascii_of_nat (Ascii.nat_of_ascii c - 32) else c.

Definition lower (c : Ascii.ascii) : Ascii.ascii :=
  if is_upper c then Ascii.ascii_of_nat (Ascii.nat_of_ascii c + 32) else c.

(** [s.title()] on ASCII text: a letter that follows a letter is made
    lower case, any other letter upper case. *)
Fixpoint title_from (previous_is_cased : bool) (s : string) : string :=
  match s with
  | EmptyString => EmptyString
  | String c s' =>
      if is_lower c || is_upper c
      then String (if previous_is_cased then lower c else upper c)
             (title_from true s')
      else String c (title_from false s')
  end.

Definition title (s : string) : string := title_from false s.

(** [s.lower()] on ASCII text. *)
Fixpoint lower_string (s : string) : string :=
  match s with
  | EmptyString => EmptyString
  | String c s' => String (lower c) (lower_string s')
  end.

(** The cased characters of ASCII text. *)
Definition is_letter (c : Ascii.ascii) : bool := is_lower c || is_upper c.

(** [all(p(c) for c in s)] *)
Fixpoint string_forall (p : Ascii.ascii -> bool) (s : string) : bool :=
  match s with
  | EmptyString => true
  | String c s' => p c && string_forall p s'
  end.

(** [needle in s] on strings. *)
Fixpoint contains (needle s : string) : bool :=
  if String.prefix needle s then true
  else match s with
       | EmptyString => false
       | String _ s' => contains needle s'
       end.

(** [sorted(l, key=..., reverse=True)] on items already paired with their
    key.  Python's sort is stable, also with [reverse=True]: items with
    equal keys keep the order they had in [l].  The result of a stable
    sort is determined by that, so the insertion sort below returns what
    [sorted] returns. *)
Fixpoint insert_desc {A} (x : Q * A) (l : list (Q * A)) : list (Q * A) :=
  match l with
  | [] => [x]
  | y :: l' => if float_lt (fst x) (fst y) then y :: insert_desc x l'
               else x :: y :: l'
  end.

Definition sort_desc {A} (l : list (Q * A)) : list (Q * A) :=
  foldr insert_desc [] l.

(** Higher key first; among equal keys, as [R] orders them: the order
    that a stable sort leaves on a list that [R] ordered before. *)
Definition key_then {A} (R : Q * A -> Q * A -> Prop) (x y : Q * A) : Prop :=
  (fst y < fst x)%Q \/ ((fst x == fst y)%Q /\ R x y).

End Py.

Import Py.

#[global] Instance M_ret {C} : MRet (M C) := fun A => @ret C A.
#[global] Instance M_bind {C} : MBind (M C) := fun A B k m => @bind C A B m k.
#[global] Instance result_ret : MRet result := fun A => @Ok A.
#[global] Instance result_mbind : MBind result :=
  fun A B k r => @result_bind A B r k.

Abbreviation dict := (gmap string value).
Abbreviation loc := positive.

(** ** The library's elements and staging bricks *)

Module Staging.

(** A document element as the partitioning library returns it: a text, a
    type tag ([category]) and free-form metadata. *)
Record Element : Type := {
  element_id : string;
  category : string;
  text : string;
  metadata : list (string * value)
}.

(** Modelled from the spec: [Element.to_dict] belongs to the library, whose
    sources are not among the notebooks.  The notebook shows its result on
    one element: the keys [element_id], [coordinates], [text], [type] and
    [metadata]. *)
Definition to_dict (e : Element) : dict :=
  <["element_id" := VStr (element_id e)]>
    (<["coordinates" := VNone]>
       (<["text" := VStr (text e)]>
          (<["type" := VStr (category e)]>
             (<["metadata" := VDict (metadata e)]> ∅)))).

(** Modelled from the spec: [convert_to_dict] of [unstructured.staging.base]
    is missing; the notebook says it converts a list of elements to a list
    of dictionaries, the dictionary of each element being its [to_dict]. *)
Definition convert_to_dict (elements : list Element) : list dict :=
  map to_dict elements.

(** A row of the dataframe: the columns the notebook displays, the
    metadata flattened into columns of their own. *)
Record row : Type := {
  row_type : string;
  row_text : string;
  row_element_id : string;
  row_coordinates : value;
  row_columns : list (string * value)
}.

Definition to_row (e : Element) : row :=
  {| row_type := category e;
     row_text := text e;
     row_element_id := element_id e;
     row_coordinates := VNone;
     row_columns := metadata e |}.

(** Modelled from the spec: [convert_to_dataframe] of
    [unstructured.staging.base] is missing; staging reformats the elements
    into a dataframe, which the notebook shows with one row per element. *)
Definition convert_to_dataframe (elements : list Element) : list row :=
  map to_row elements.

(** The annotation objects the SEC notebook builds for Label Studio. *)
Record LabelStudioResult : Type := {
  type : string;
  value_choices : list string;
  from_name : string;
  to_name : string
}.

Record LabelStudioAnnotation : Type := {
  result_ : list LabelStudioResult
}.

Record task : Type := {
  data_text : string;
  annotations : list LabelStudioAnnotation
}.

(** Modelled from the spec: [stage_for_label_studio] of
    [unstructured.staging.label_studio] is missing; it formats the elements
    for upload as labeling tasks, each element with the annotations given
    for it.  Lists of different lengths are refused. *)
Fixpoint stage_for_label_studio (elements : list Element)
  (annotations : list (list LabelStudioAnnotation)) : result (list task) :=
  match elements, annotations with
  | [], [] => Ok []
  | e :: elements', a :: annotations' =>
      tasks ← stage_for_label_studio elements' annotations';
      Ok ({| data_text := text e; annotations := a |} :: tasks)
  | _, _ => Raise (ValueError "The length of elements and annotations must match.")
  end.

(** Modelled from the spec: [stage_for_transformers] of
    [unstructured.staging.huggingface] is missing.  The notebook describes
    it: it chunks its input by the size of the attention window of the
    model, and there turns ten paragraphs into two text snippets.  The
    texts are taken in order; a chunk is closed when the next text would
    not fit; a text that alone exceeds the window is refused.  [num_tokens]
    is what the tokenizer counts and [max_chunk_size] the room in the
    window. *)
Fixpoint chunk_by_attention_window (num_tokens : string -> nat)
  (max_chunk_size : nat) (chunk : list string) (chunk_size : nat)
  (segments : list string) : result (list (list string)) :=
  match segments with
  | [] => Ok (match chunk with [] => [] | _ => [chunk] end)
  | segment :: rest =>
      let n := num_tokens segment in
      if (max_chunk_size <? n)%nat
      then Raise (ValueError "The number of tokens in the segment exceeds the window.")
      else if (max_chunk_size <? chunk_size + n)%nat
      then chunks ← chunk_by_attention_window num_tokens max_chunk_size
                      [segment] n rest;
           Ok (chunk :: chunks)
      else chunk_by_attention_window num_tokens max_chunk_size
             (chunk ++ [segment]) (chunk_size + n) rest
  end.

Definition chunk_separator : string :=
  String (Ascii.ascii_of_nat 10) (String (Ascii.ascii_of_nat 10) "").

Fixpoint join (sep : string) (l : list string) : string :=
  match l with
  | [] => ""
  | [s] => s
  | s :: l' => s ++ sep ++ join sep l'
  end.

Definition stage_for_transformers (num_tokens : string -> nat)
  (max_chunk_size : nat) (elements : list Element) : result (list string) :=
  chunks ← chunk_by_attention_window num_tokens max_chunk_size [] 0
              (map text elements);
  Ok (map (join chunk_separator) chunks).

End Staging.

(** ** [examples/elastic-search/load-into-es.ipynb] *)

Module Elastic.
Import Staging.

(** The calls that leave the notebook. *)
Inductive call : Type :=
| partition_ (filename : string)
| to_dict_ (element : Element)
| convert_to_dict_ (elements : list Element)
| json_dumps_ (document : dict)
| clean_extra_whitespace_ (text : value)
| Elasticsearch_ (credentials : string)
| TextBlob_ (text : value)
| index_ (index : string) (document : dict)
| execute_ (sentiment : string)
| print_ (what : list value).

Abbreviation history := (list (call * option exn)).

(** What the libraries and the search service answer. *)
Class Externals : Type := {
  partition : history -> string -> result (list Element);
  convert_to_dict : history -> list Element -> result (list dict);
  json_dumps : history -> dict -> result string;
  clean_extra_whitespace : history -> value -> result string;
  Elasticsearch : history -> string -> result unit;
  TextBlob : history -> value -> result (Q * Q);
  es_client_index : history -> string -> dict -> result unit;
  Search_execute : history -> string -> result (list dict)
}.

Section Notebook.
Context `{X : Externals}.

Definition print (what : list value) : M call unit :=
  extcall (print_ what) (fun _ => Ok tt).

Definition path : string := "../../example-docs/example-with-scripts.html".

(** [elements = partition(path)], then the prints of the cell. *)
Definition cell_partition : M call (list Element) :=
  elements ← extcall (partition_ path) (fun h => partition h path);
  print [VStr "total number of elements: "; VInt (Z.of_nat (length elements))];;
  print [VStr "first element, some fields:"];;
  first ← lift (list_item elements 0);
  print [VStr (category first)];;
  print [VStr (text first)];;
  print [VDict (metadata first)];;
  mret elements.

(** [[element for element in elements if "Text" in element.category]] *)
Definition text_elements_of (elements : list Element) : list Element :=
  List.filter (fun element => contains "Text" (category element)) elements.

Definition cell_filter (elements : list Element) : M call (list Element) :=
  let text_elements := text_elements_of elements in
  print [VStr "total number of Text elements: ";
         VInt (Z.of_nat (length text_elements))];;
  print [VStr "first Text element, some fields:"];;
  first ← lift (list_item text_elements 0);
  print [VStr (category first)];;
  print [VStr (text first)];;
  print [VDict (metadata first)];;
  extcall (to_dict_ first) (fun _ => Ok tt);;
  mret text_elements.

(** [text_elements_dict = convert_to_dict(text_elements)]: the library
    returns new dictionaries, which the notebook holds by reference. *)
Definition cell_convert (text_elements : list Element) : M call (list loc) :=
  dicts ← extcall (convert_to_dict_ text_elements)
             (fun h => convert_to_dict h text_elements);
  text_elements_dict ← for_append alloc [] dicts;
  fifth ← lift (list_item text_elements_dict 4);
  d ← deref fifth;
  shown ← extcall (json_dumps_ d) (fun h => json_dumps h d);
  print [VStr shown];;
  mret text_elements_dict.

(** The body of the cleaning loop:
    [element_dict["text"] = clean_extra_whitespace(element_dict["text"])],
    after which the same object is appended to
    [clean_text_elements_dict]. *)
Definition clean_body (element_dict : loc) : M call loc :=
  d ← deref element_dict;
  t ← lift (getitem d "text");
  cleaned ← extcall (clean_extra_whitespace_ t)
               (fun h => clean_extra_whitespace h t);
  setitem element_dict "text" (VStr cleaned);;
  mret element_dict.

Definition clean_loop (text_elements_dict : list loc) : M call (list loc) :=
  for_append clean_body [] text_elements_dict.

Definition cell_clean (text_elements_dict : list loc) : M call (list loc) :=
  clean_text_elements_dict ← clean_loop text_elements_dict;
  fifth ← lift (list_item clean_text_elements_dict 4);
  d ← deref fifth;
  shown ← extcall (json_dumps_ d) (fun h => json_dumps h d);
  print [VStr shown];;
  mret clean_text_elements_dict.

Definition cell_connect : M call unit :=
  extcall (Elasticsearch_ "es-credentials.ini")
    (fun h => Elasticsearch h "es-credentials.ini").

(** The number under key [k], for a comparison with a number.  The
    fields read this way hold the floats that the loading loop stored;
    another kind of value is refused here. *)
Definition number_item (d : dict) (k : string) : result Q :=
  match d !! k with
  | Some (VFloat q) => Ok q
  | Some (VInt z) => Ok (inject_Z z)
  | Some _ => Raise (TypeError "not a number")
  | None => Raise (KeyError k)
  end.

Definition index_name : string := "search-unstructured-elements".

(** The body of the loading loop.  [TextBlob(...).sentiment] is computed
    once by the library and read twice. *)
Definition index_body (element : loc) : M call unit :=
  d ← deref element;
  t ← lift (getitem d "text");
  sentiment ← extcall (TextBlob_ t) (fun h => TextBlob h t);
  setitem element "polarity" (VFloat (round4 (fst sentiment)));;
  setitem element "subjectivity" (VFloat (round4 (snd sentiment)));;
  d ← deref element;
  polarity ← lift (number_item d "polarity");
  (if float_lt polarity 0 then setitem element "sentiment" (VStr "negative")
   else if float_eq polarity 0 then setitem element "sentiment" (VStr "neutral")
   else setitem element "sentiment" (VStr "positive"));;
  document ← deref element;
  extcall (index_ index_name document)
    (fun h => es_client_index h index_name document).

(** [for element in tqdm(clean_text_elements_dict): ...]; [tqdm] only
    draws the progress bar. *)
Definition index_loop (clean_text_elements_dict : list loc) : M call unit :=
  for_each index_body clean_text_elements_dict.

(** The label the loop stores for a rounded polarity [polarity], and the
    document it builds from an element dictionary and the two scores of
    TextBlob; [index_body_run] below shows that this is what the body
    does. *)
Definition sentiment_label (polarity : Q) : string :=
  if float_lt polarity 0 then "negative"
  else if float_eq polarity 0 then "neutral"
  else "positive".

Definition annotated (scores : Q * Q) (d : dict) : dict :=
  <["sentiment" := VStr (sentiment_label (round4 (fst scores)))]>
    (<["subjectivity" := VFloat (round4 (snd scores))]>
       (<["polarity" := VFloat (round4 (fst scores))]> d)).

(** The documents given to [es_client.index] in a log, oldest first. *)
Definition indexed_documents (h : history) : list dict :=
  omap (fun entry => match fst entry with
                     | index_ _ document => Some document
                     | _ => None
                     end) h.

(** A stored document whose [sentiment] is the sign of its [polarity]. *)
Definition labelled_by_sign (document : dict) : Prop :=
  exists (p : Q) (label : string),
    document !! "polarity" = Some (VFloat p) /\
    document !! "sentiment" = Some (VStr label) /\
    (label = "negative" <-> (p < 0)%Q) /\
    (label = "neutral" <-> (p == 0)%Q) /\
    (label = "positive" <-> (0 < p)%Q) /\
    (label = "negative" \/ label = "neutral" \/ label = "positive").

(** A stored document whose [polarity] is what TextBlob answered for its
    [text], rounded to four decimal places. *)
Definition polarity_from_TextBlob (document : dict) : Prop :=
  exists (h : history) (t : value) (scores : Q * Q),
    document !! "text" = Some t /\
    TextBlob h t = Ok scores /\
    document !! "polarity" = Some (VFloat (round4 (fst scores))).

(** The cleaning loop, then the loading loop on the list it built. *)
Definition clean_then_load (text_elements_dict : list loc) : M call unit :=
  clean_text_elements_dict ← clean_loop text_elements_dict;
  index_loop clean_text_elements_dict.


(** A value that the notebook derives from such an answer: a score
    rounded to four decimal places, or the label of the sign of the
    rounded polarity. *)
Definition derived_by_notebook (v : value) : Prop :=
  exists (h : history) (t : value) (scores : Q * Q),
    TextBlob h t = Ok scores /\
    (v = VFloat (round4 (fst scores)) \/
     v = VFloat (round4 (snd scores)) \/
     v = VStr (sentiment_label (round4 (fst scores)))).

(** Every field of [document] is a field of the dictionary at [r] in the
    store [h0], or satisfies [P]. *)
Definition fields_from (h0 : gmap loc dict) (P : value -> Prop)
  (document : dict) (r : loc) : Prop :=
  forall (k : string) (v : value),
    document !! k = Some v -> (h0 !!! r) !! k = Some v \/ P v.

(** The fields that the two loops write. *)
Definition written_keys : list string :=
  ["text"; "polarity"; "subjectivity"; "sentiment"].

(** A stored document whose [sentiment] follows the polarity that
    TextBlob answered for its [text], with a neutral band of half a
    ten-thousandth on each side of zero. *)
Definition sentiment_by_band (document : dict) : Prop :=
  exists (h : history) (t : value) (scores : Q * Q),
    document !! "text" = Some t /\
    TextBlob h t = Ok scores /\
    ((fst scores < -(1 # 20000))%Q ->
     document !! "sentiment" = Some (VStr "negative")) /\
    ((-(1 # 20000) <= fst scores)%Q -> (fst scores <= 1 # 20000)%Q ->
     document !! "sentiment" = Some (VStr "neutral")) /\
    ((1 # 20000 < fst scores)%Q ->
     document !! "sentiment" = Some (VStr "positive")).

(** [stored] is [raw] to the nearest ten-thousandth. *)
Definition nearest_ten_thousandth (raw stored : Q) : Prop :=
  (stored - (1 # 20000) <= raw)%Q /\ (raw <= stored + (1 # 20000))%Q /\
  exists n : Z, stored = (inject_Z n / 10000)%Q.

(** A stored document whose two scores are those that TextBlob answered
    for its [text], each to the nearest ten-thousandth. *)
Definition scores_to_four_places (document : dict) : Prop :=
  exists (h : history) (t : value) (scores : Q * Q) (p j : Q),
    document !! "text" = Some t /\
    TextBlob h t = Ok scores /\
    document !! "polarity" = Some (VFloat p) /\
    document !! "subjectivity" = Some (VFloat j) /\
    nearest_ten_thousandth (fst scores) p /\
    nearest_ten_thousandth (snd scores) j.

(** The dictionary at [r] in the store [h] has a string as its [text]. *)
Definition text_is_str (h : gmap loc dict) (r : loc) : Prop :=
  exists c : string, (h !!! r) !! "text" = Some (VStr c).

(** The texts given to [TextBlob] in a log, oldest first. *)
Definition TextBlob_arguments (h : history) : list value :=
  omap (fun entry => match fst entry with
                     | TextBlob_ t => Some t
                     | _ => None
                     end) h.



(** Each hit paired with the key the [lambda] reads from it, left to
    right. *)
Fixpoint decorate (k : string) (l : list dict) : result (list (Q * dict)) :=
  match l with
  | [] => Ok []
  | d :: l' =>
      q ← number_item d k;
      kl ← decorate k l';
      Ok ((q, d) :: kl)
  end.

(** [sorted(l, key=lambda d: d[k], reverse=True)] *)
Definition sorted_reverse (k : string) (l : list dict) : result (list dict) :=
  kl ← decorate k l;
  Ok (map snd (sort_desc kl)).

(** The number a hit carries under [k] ([0] when it carries none). *)
Definition score (k : string) (hit : dict) : Q :=
  match number_item hit k with
  | Ok q => q
  | Raise _ => 0%Q
  end.

(** A hit paired with its key, as [decorate] pairs it. *)
Definition tag (k : string) (hit : dict) : Q * dict := (score k hit, hit).

(** A hit with numbers under [polarity] and [subjectivity]. *)
Definition numeric (hit : dict) : bool :=
  match number_item hit "polarity", number_item hit "subjectivity" with
  | Ok _, Ok _ => true
  | _, _ => false
  end.

(** [a] may stand before [b] in a list ordered by subjectivity, highest
    first, and among equal subjectivities by polarity, highest first. *)
Definition subjectivity_then_polarity (a b : dict) : Prop :=
  (score "subjectivity" b < score "subjectivity" a)%Q \/
  ((score "subjectivity" a == score "subjectivity" b)%Q /\
   (score "polarity" b <= score "polarity" a)%Q).

(** One sort seen on the hits themselves: the stable insertion of a hit
    in a list ordered by the number under [k], highest first, and the sort
    built from it.  [sorted_reverse_sort_by] below shows that this is what
    [sorted_reverse] returns. *)
Fixpoint insert_by (k : string) (x : dict) (l : list dict) : list dict :=
  match l with
  | [] => [x]
  | y :: l' => if float_lt (score k x) (score k y) then y :: insert_by k x l'
               else x :: y :: l'
  end.

Definition sort_by (k : string) (l : list dict) : list dict :=
  foldr (insert_by k) [] l.

(** [hit] carries the polarity and the subjectivity of [x]. *)
Definition ties (x hit : dict) : bool :=
  float_eq (score "polarity" hit) (score "polarity" x) &&
  float_eq (score "subjectivity" hit) (score "subjectivity" x).

(** The two sorts of the query cell. *)
Definition sorted_elements (response : list dict) : result (list dict) :=
  by_polarity ← sorted_reverse "polarity" response;
  sorted_reverse "subjectivity" by_polarity.

Definition cell_query : M call (list dict) :=
  response_pos ← extcall (execute_ "positive")
                    (fun h => Search_execute h "positive");
  response ← extcall (execute_ "negative")
                (fun h => Search_execute h "negative");
  lift (sorted_elements (response ++ response_pos)).

Definition attribute (hit : dict) (name : string) : result value :=
  match hit !! name with
  | Some v => Ok v
  | None => Raise (AttributeError name)
  end.

(** [for ix, hit in enumerate(sorted_elements, start=1): print(...);
     if ix == 5: break] *)
Fixpoint print_top (ix : nat) (hits : list dict) : M call unit :=
  match hits with
  | [] => ret tt
  | hit :: rest =>
      t ← lift (attribute hit "text");
      s ← lift (attribute hit "sentiment");
      p ← lift (attribute hit "polarity");
      j ← lift (attribute hit "subjectivity");
      print [VInt (Z.of_nat ix); t; s; p; j];;
      if (ix =? 5)%nat then ret tt else print_top (S ix) rest
  end.

(** A hit that has the four attributes the loop prints, and the call
    that prints it as number [ix]. *)
Definition printable (hit : dict) : bool :=
  match hit !! "text", hit !! "sentiment", hit !! "polarity",
        hit !! "subjectivity" with
  | Some _, Some _, Some _, Some _ => true
  | _, _, _, _ => false
  end.

Definition printed (ix : nat) (hit : dict) : call :=
  print_ [VInt (Z.of_nat ix);
          default VNone (hit !! "text");
          default VNone (hit !! "sentiment");
          default VNone (hit !! "polarity");
          default VNone (hit !! "subjectivity")].

Definition cell_print (hits : list dict) : M call unit :=
  print [VStr "TOP 5 MOST POLARIZED & SUBJECTIVE TEXT ELEMENTS IN THE HTML FILE: "];;
  print_top 1 hits.

(** The notebook, cell after cell. *)
Definition notebook : M call unit :=
  elements ← cell_partition;
  text_elements ← cell_filter elements;
  text_elements_dict ← cell_convert text_elements;
  clean_text_elements_dict ← cell_clean text_elements_dict;
  cell_connect;;
  index_loop clean_text_elements_dict;;
  hits ← cell_query;
  cell_print hits.

End Notebook.

(** A world to run the notebook in: two elements, a TextBlob that finds
    the text "bad" negative, an index that accepts everything. *)
Definition demo_bad : Element :=
  {| element_id := "e1"; category := "NarrativeText"; text := "bad";
     metadata := [("page_number", VInt 1)] |}.

Definition demo_fine : Element :=
  {| element_id := "e2"; category := "UncategorizedText"; text := "fine";
     metadata := [] |}.

Definition demo_elements : list Element := [demo_bad; demo_fine].

Definition demo : Externals := {|
  partition := fun _ _ => Ok demo_elements;
  convert_to_dict := fun _ elements => Ok (Staging.convert_to_dict elements);
  json_dumps := fun _ _ => Ok "{}";
  clean_extra_whitespace := fun _ v =>
    match v with
    | VStr s => Ok s
    | _ => Raise (TypeError "expected string")
    end;
  Elasticsearch := fun _ _ => Ok tt;
  TextBlob := fun _ v =>
    match v with
    | VStr "bad" => Ok ((-3 # 4)%Q, 1%Q)
    | VStr _ => Ok ((1083 # 10000)%Q, (23 # 40)%Q)
    | _ => Raise (TypeError "expected string")
    end;
  es_client_index := fun _ _ _ => Ok tt;
  Search_execute := fun _ _ => Ok []
|}.

(** A store with the dictionaries of the two elements. *)
Definition demo_state : state call :=
  State (<[2%positive := Staging.to_dict demo_fine]>
           (<[1%positive := Staging.to_dict demo_bad]> ∅))
        3%positive [].

Definition hit (polarity subjectivity : Q) (t : string) : dict :=
  <["text" := VStr t]>
    (<["polarity" := VFloat polarity]>
       (<["subjectivity" := VFloat subjectivity]> ∅)).

Definition demo_hits : list dict :=
  [ hit (1071 # 10000) (3421 # 10000) "a";
    hit (-896 # 10000) (4208 # 10000) "b";
    hit (1083 # 10000) (575 # 1000) "c";
    hit (-3 # 4) 1 "d";
    hit (-896 # 10000) (4208 # 10000) "e";
    hit (1 # 2) (4208 # 10000) "f" ].



(** The same hits as the index returns them, with their [sentiment]. *)
Definition demo_stored_hits : list dict :=
  map (fun h => <["sentiment" := VStr (sentiment_label (score "polarity" h))]> h)
    demo_hits.

(** A world whose index answers each search with hits of equal scores. *)
Definition demo_tied : Externals := {|
  partition := fun _ _ => Ok demo_elements;
  convert_to_dict := fun _ elements => Ok (Staging.convert_to_dict elements);
  json_dumps := fun _ _ => Ok "{}";
  clean_extra_whitespace := fun _ v =>
    match v with
    | VStr s => Ok s
    | _ => Raise (TypeError "expected string")
    end;
  Elasticsearch := fun _ _ => Ok tt;
  TextBlob := fun _ _ => Ok ((1 # 2)%Q, (1 # 2)%Q);
  es_client_index := fun _ _ _ => Ok tt;
  Search_execute := fun _ sentiment =>
    if String.eqb sentiment "positive"
    then Ok [hit (1 # 2) (3 # 5) "p1"; hit (1 # 4) (3 # 5) "p2";
             hit (1 # 2) (3 # 5) "p3"]
    else Ok [hit (-1 # 2) (3 # 5) "n1"; hit (-1 # 4) 1 "n2";
             hit (-1 # 2) (3 # 5) "n3"]
|}.

End Elastic.

(** ** The MySQL notebook *)

Module MySQL.
Import Staging.

Inductive call : Type :=
| partition_ (filename : string) (strategy : string)
| display_ (what : value)
| convert_to_dataframe_ (elements : list Element)
| head_ (df : list row)
| environ_get_ (name : string)
| create_engine_ (url : string)
| to_sql_ (df : list row) (name : string) (if_exists : string)
| read_sql_query_ (sql : string).

Abbreviation history := (list (call * option exn)).

Class Externals : Type := {
  partition : history -> string -> string -> result (list Element);
  convert_to_dataframe : history -> list Element -> result (list row);
  environ_get : history -> string -> result (option string);
  create_engine : history -> string -> result unit;
  to_sql : history -> list row -> string -> string -> result Z;
  read_sql_query : history -> string -> result (list row)
}.

Section Notebook.
Context `{X : Externals}.

Definition display (what : value) : M call unit :=
  extcall (display_ what) (fun _ => Ok tt).

Definition EXAMPLE_DOCS_FOLDER : string := "../../example-docs/".

Definition documents_to_process : list string :=
  ["fake-email.eml"; "fake.docx"; "layout-parser-paper-fast.pdf"].

(** [elements.extend(partition(filename=filename, strategy="fast"))];
    [os.path.join] of a folder that ends in a slash and a relative name
    appends the name. *)
Definition partition_body (document : string) : M call (list Element) :=
  let filename := EXAMPLE_DOCS_FOLDER ++ document in
  extcall (partition_ filename "fast") (fun h => partition h filename "fast").

Definition cell_partition : M call (list Element) :=
  elements ← for_extend partition_body [] documents_to_process;
  first ← lift (list_item elements 0);
  display (VStr (text first));;
  display (VDict (metadata first));;
  mret elements.

Definition cell_convert (elements : list Element) : M call (list row) :=
  elements_df ← extcall (convert_to_dataframe_ elements)
                   (fun h => convert_to_dataframe h elements);
  extcall (head_ elements_df) (fun _ => Ok tt);;
  mret elements_df.

Definition user : string := "matt".
Definition host : string := "localhost".
Definition db : string := "unstructured_example".
Definition table_name : string := "processed_documents".

(** The connection string; [None] is formatted as its name. *)
Definition engine_url (pwd : option string) : string :=
  "mysql+mysqlconnector://" ++ user ++ ":" ++ default "None" pwd
    ++ "@" ++ host ++ "/" ++ db.

Definition cell_engine : M call unit :=
  pwd ← extcall (environ_get_ "MYSQL_PWD") (fun h => environ_get h "MYSQL_PWD");
  extcall (create_engine_ (engine_url pwd))
    (fun h => create_engine h (engine_url pwd)).

(** [elements_df.to_sql(name=table_name, con=engine, if_exists="replace",
    index=False)] *)
Definition cell_load (elements_df : list row) : M call unit :=
  written ← extcall (to_sql_ elements_df table_name "replace")
               (fun h => to_sql h elements_df table_name "replace");
  display (VInt written).

Definition sql : string :=
  "SELECT * FROM unstructured_example.processed_documents WHERE type = 'NarrativeText' AND filename LIKE '%fake-email.eml%'".

Definition cell_read : M call (list row) :=
  elements_read_df ← extcall (read_sql_query_ sql)
                        (fun h => read_sql_query h sql);
  extcall (head_ elements_read_df) (fun _ => Ok tt);;
  mret elements_read_df.

Definition notebook : M call (list row) :=
  elements ← cell_partition;
  elements_df ← cell_convert elements;
  cell_engine;;
  cell_load elements_df;;
  cell_read.

End Notebook.

(** The dataframes given to [to_sql] in a log, with the table and the
    mode. *)
Definition sql_writes (h : history) : list (list row * string * string) :=
  omap (fun entry => match fst entry with
                     | to_sql_ df name if_exists => Some (df, name, if_exists)
                     | _ => None
                     end) h.

(** [m] does not write to the database. *)
Definition quiet {A} (m : M call A) : Prop :=
  emits m (fun new _ => sql_writes new = []).

(** [m] writes to the database at most once, and when it does not raise
    it has written exactly the dataframe [df] to the table of the
    notebook, replacing what was there. *)
Definition writes_once {A} (df : list row) (m : M call A) : Prop :=
  emits m (fun new r =>
    length (sql_writes new) <= 1 /\
    (outcome r = None -> sql_writes new = [(df, table_name, "replace")])).

(** [to_sql] has not been called, or it has been called once, with the
    dataframe that [convert_to_dataframe] returned for a list of elements
    that is not empty. *)
Definition written_from_elements `{X : Externals} (new : history) : Prop :=
  sql_writes new = [] \/
  exists (h : history) (elements : list Element) (df : list row),
    elements <> [] /\
    convert_to_dataframe h elements = Ok df /\
    sql_writes new = [(df, table_name, "replace")].

(** A world to run the notebook in: every file holds one element. *)
Definition demo : Externals := {|
  partition := fun _ filename _ =>
    Ok [ {| element_id := filename; category := "NarrativeText";
            text := "text of " ++ filename; metadata := [] |} ];
  convert_to_dataframe := fun _ elements =>
    Ok (Staging.convert_to_dataframe elements);
  environ_get := fun _ _ => Ok None;
  create_engine := fun _ _ => Ok tt;
  to_sql := fun _ _ _ _ => Ok (-1)%Z;
  read_sql_query := fun _ _ => Ok []
|}.

End MySQL.

(** ** The SEC sentiment-analysis notebook *)

Module SEC.
Import Staging.

Record Response : Type := { status_code : nat; content : string }.

(** What a sentiment pipeline answers for one text. *)
Record Inference : Type := { label : string; score : Q }.

Inductive call : Type :=
| getcwd_
| exists_ (path : string)
| mkdir_ (path : string)
| get_form_by_ticker_ (ticker form_type company email : string)
| write_ (filename form_text : string)
| print_ (what : string)
| get_version_
| open_ (filename : string)
| post_ (url text_files : string) (section : list string)
| raise_for_status_ (response : Response)
| json_ (response : Response)
| sleep_ (seconds : nat)
| isd_to_elements_ (sections : value)
| pipeline_ (task : option string) (model : string)
| infer_ (model : string) (texts : list string)
| stage_for_label_studio_ (elements : list Element)
    (annotations : list (list LabelStudioAnnotation))
| dump_ (filename : string) (data : list task)
| load_ (filename : string)
| from_dict_ (texts : list value) (labels : list Z)
| model_from_pretrained_ (name : string) (num_labels : nat)
| tokenizer_from_pretrained_ (name : string)
| map_ (texts : list value)
| DataCollatorWithPadding_
| Trainer_
| train_
| save_model_ (output_dir : string)
| display_ (what : list string)
| stage_for_transformers_ (elements : list Element).

Abbreviation history := (list (call * option exn)).

Class Externals : Type := {
  getcwd : history -> result string;
  path_exists : history -> string -> result bool;
  mkdir : history -> string -> result unit;
  get_form_by_ticker : history -> string -> string -> string -> string
                       -> result string;
  write : history -> string -> string -> result unit;
  get_version : history -> result string;
  open : history -> string -> result string;
  post : history -> string -> string -> list string -> result Response;
  raise_for_status : history -> Response -> result unit;
  json : history -> Response -> result dict;
  sleep : history -> nat -> result unit;
  isd_to_elements : history -> value -> result (list Element);
  pipeline : history -> option string -> string -> result unit;
  infer : history -> string -> list string -> result (list Inference);
  stage_for_label_studio : history -> list Element
                           -> list (list LabelStudioAnnotation)
                           -> result (list task);
  dump : history -> string -> list task -> result unit;
  load : history -> string -> result (list dict);
  from_dict : history -> list value -> list Z -> result unit;
  model_from_pretrained : history -> string -> nat -> result unit;
  tokenizer_from_pretrained : history -> string -> result unit;
  dataset_map : history -> list value -> result unit;
  DataCollatorWithPadding : history -> result unit;
  Trainer : history -> result unit;
  train : history -> result unit;
  save_model : history -> string -> result unit;
  stage_for_transformers : history -> list Element -> result (list string)
}.

Section Notebook.
Context `{X : Externals}.

Definition print (what : string) : M call unit :=
  extcall (print_ what) (fun _ => Ok tt).

Definition display (what : list string) : M call unit :=
  extcall (display_ what) (fun _ => Ok tt).

Definition tickers : list string :=
  ["ehc"; "mrk"; "nke"; "msex"; "v"; "cvs"; "doc"; "smtc"; "cl"; "ava"; "bc";
   "f"; "lmt"; "cri"; "aig"; "rgld"; "apld"; "omcl"; "mmm"; "bgs"; "dis";
   "wetg"; "bj"].

(** [os.path.join(a, b)] for a relative [b]. *)
Definition path_join (a b : string) : string :=
  if String.eqb a "" then b
  else if String.eqb (String.substring (String.length a - 1) 1 a) "/"
       then a ++ b
       else a ++ "/" ++ b.

Definition cell_directory : M call string :=
  cwd ← extcall getcwd_ getcwd;
  let data_directory := path_join cwd "xbrl-forms" in
  present ← extcall (exists_ data_directory)
               (fun h => path_exists h data_directory);
  (if negb present
   then extcall (mkdir_ data_directory) (fun h => mkdir h data_directory)
   else ret tt);;
  mret data_directory.

(** The body of the loop that fetches the filings and saves them. *)
Definition fetch_body (data_directory ticker : string) : M call unit :=
  form_text ← extcall
      (get_form_by_ticker_ ticker "10-K" "Unstructured Technologies"
         "support@unstructured.io")
      (fun h => get_form_by_ticker h ticker "10-K" "Unstructured Technologies"
                  "support@unstructured.io");
  let filename := path_join data_directory (ticker ++ "-10k.xbrl") in
  extcall (write_ filename form_text) (fun h => write h filename form_text);;
  print ".".

Definition cell_fetch (data_directory : string) : M call unit :=
  for_each (fetch_body data_directory) tickers.

Definition cell_url : M call string :=
  version ← extcall get_version_ get_version;
  let url := "https://api.unstructured.io/sec-filings/v" ++ version
               ++ "/section" in
  print url;;
  mret url.

(** [d[k] = v] on a dictionary that keeps its keys in insertion order. *)
Fixpoint dict_set {V} (k : string) (v : V) (d : list (string * V))
  : list (string * V) :=
  match d with
  | [] => [(k, v)]
  | (k', v') :: d' => if String.eqb k k' then (k, v) :: d'
                      else (k', v') :: dict_set k v d'
  end.

(** The body of the loop that submits the saved filings to the API. *)
Definition extract_body (url : string) (risk_factors : list (string * value))
  (ticker : string) : M call (list (string * value)) :=
  let filename := "./xbrl-forms/" ++ ticker ++ "-10k.xbrl" in
  file ← extcall (open_ filename) (fun h => open h filename);
  response ← extcall (post_ url file ["RISK_FACTORS"])
                (fun h => post h url file ["RISK_FACTORS"]);
  extcall (raise_for_status_ response) (fun h => raise_for_status h response);;
  body ← extcall (json_ response) (fun h => json h response);
  section ← lift (getitem body "RISK_FACTORS");
  extcall (sleep_ 1) (fun h => sleep h 1);;
  print ".";;
  mret (dict_set ticker section risk_factors).

Definition cell_extract (url : string) : M call (list (string * value)) :=
  for_fold (extract_body url) [] tickers.

(** [for sections in risk_factors.values():
       elements.extend(isd_to_elements(sections))] *)
Definition elements_body (sections : value) : M call (list Element) :=
  extcall (isd_to_elements_ sections) (fun h => isd_to_elements h sections).

Definition cell_elements (risk_factors : list (string * value))
  : M call (list Element) :=
  for_extend elements_body [] (map snd risk_factors).

Definition sst2 : string := "distilbert-base-uncased-finetuned-sst-2-english".

Definition cell_pipeline : M call unit :=
  extcall (pipeline_ None sst2) (fun h => pipeline h None sst2).

(** The body of the loop that pre-annotates the elements. *)
Definition annotate_body (ie : nat * Element)
  : M call (list LabelStudioAnnotation) :=
  let i := fst ie in
  let element := snd ie in
  inference ← extcall (infer_ sst2 [text element])
                 (fun h => infer h sst2 [text element]);
  first ← lift (list_item inference 0);
  let result := [ {| type := "choices";
                     value_choices := [title (label first)];
                     from_name := "sentiment";
                     to_name := "text" |} ] in
  (if (i mod 40 =? 1)%nat then print "." else ret tt);;
  mret [ {| result_ := result |} ].

Definition cell_annotate (elements : list Element)
  : M call (list (list LabelStudioAnnotation)) :=
  for_append annotate_body [] (enumerate 0 elements).

Definition cell_stage (elements : list Element)
  (annotations : list (list LabelStudioAnnotation)) : M call unit :=
  label_studio_data ← extcall (stage_for_label_studio_ elements annotations)
      (fun h => stage_for_label_studio h elements annotations);
  extcall (dump_ "sec-sentiment-analysis.json" label_studio_data)
    (fun h => dump h "sec-sentiment-analysis.json" label_studio_data).

(** [0 if item["sentiment"] == "Negative" else 1] *)
Definition label_of (item : dict) : result Z :=
  sentiment ← getitem item "sentiment";
  Ok (if eq_str sentiment "Negative" then 0%Z else 1%Z).

(** The two comprehensions of the dictionary given to [Dataset.from_dict],
    in the order Python evaluates them. *)
Definition training_columns (training_data : list dict)
  : result (list value * list Z) :=
  texts ← comprehension (fun item => getitem item "text") training_data;
  labels ← comprehension label_of training_data;
  Ok (texts, labels).

Definition cell_dataset : M call (list value) :=
  training_data ← extcall (load_ "sec-sentiment-analysis-labeled.json")
      (fun h => load h "sec-sentiment-analysis-labeled.json");
  columns ← lift (training_columns training_data);
  extcall (from_dict_ (fst columns) (snd columns))
    (fun h => from_dict h (fst columns) (snd columns));;
  mret (fst columns).

Definition model_name : string := "distilbert-base-uncased".

Definition cell_train (texts : list value) : M call unit :=
  extcall (model_from_pretrained_ model_name 2)
    (fun h => model_from_pretrained h model_name 2);;
  extcall (tokenizer_from_pretrained_ model_name)
    (fun h => tokenizer_from_pretrained h model_name);;
  extcall (map_ texts) (fun h => dataset_map h texts);;
  extcall DataCollatorWithPadding_ DataCollatorWithPadding;;
  extcall Trainer_ Trainer;;
  extcall train_ train.

Definition sec_sentiment_model : string := "./sec-sentiment-model".

Definition cell_use (elements : list Element) : M call (list Inference) :=
  extcall (save_model_ "sec-sentiment-model")
    (fun h => save_model h "sec-sentiment-model");;
  extcall (pipeline_ (Some "sentiment-analysis") sec_sentiment_model)
    (fun h => pipeline h (Some "sentiment-analysis") sec_sentiment_model);;
  first ← lift (list_item elements 0);
  display [text first];;
  extcall (infer_ sec_sentiment_model [text first])
    (fun h => infer h sec_sentiment_model [text first]);;
  chunked_text ← extcall (stage_for_transformers_ (take 10 elements))
      (fun h => stage_for_transformers h (take 10 elements));
  extcall (infer_ sec_sentiment_model chunked_text)
    (fun h => infer h sec_sentiment_model chunked_text).

(** The second half of the notebook, from the elements on: labeling,
    training, use. *)
Definition label_and_train (elements : list Element)
  : M call (list Inference) :=
  cell_pipeline;;
  annotations ← cell_annotate elements;
  cell_stage elements annotations;;
  texts ← cell_dataset;
  cell_train texts;;
  cell_use elements.

Definition notebook : M call (list Inference) :=
  data_directory ← cell_directory;
  cell_fetch data_directory;;
  url ← cell_url;
  risk_factors ← cell_extract url;
  elements ← cell_elements risk_factors;
  label_and_train elements.

(** The annotation that the loop builds for [element]: one "choices"
    result whose choice is the first label that the sentiment pipeline
    answered for the text of the element, in title case. *)
Definition annotated_from (element : Element)
  (annotation : list LabelStudioAnnotation) : Prop :=
  exists (h : history) (inference : list Inference) (first : Inference),
    infer h sst2 [text element] = Ok inference /\
    inference !! 0%nat = Some first /\
    annotation
    = [ {| result_ := [ {| type := "choices";
                           value_choices := [title (label first)];
                           from_name := "sentiment";
                           to_name := "text" |} ] |} ].

(** The files written in a log, oldest first: name and contents. *)
Definition saved (h : history) : list (string * string) :=
  omap (fun entry => match fst entry with
                     | write_ filename form_text => Some (filename, form_text)
                     | _ => None
                     end) h.

(** The name under which the fetch loop saves the filing of [ticker]. *)
Definition form_file (data_directory ticker : string) : string :=
  path_join data_directory (ticker ++ "-10k.xbrl").

(** [file] is the file of one of the [tickers], and holds the form that
    [get_form_by_ticker] answered for it. *)
Definition fetched_form (data_directory : string) (l : list string)
  (file : string * string) : Prop :=
  exists (h : history) (ticker : string),
    ticker ∈ l /\
    fst file = form_file data_directory ticker /\
    get_form_by_ticker h ticker "10-K" "Unstructured Technologies"
      "support@unstructured.io" = Ok (snd file).







End Notebook.

(** Labeled data as Label Studio exports it, with labels in three
    spellings. *)
Definition demo_training_data : list dict :=
  [ <["text" := VStr "risk"]> (<["sentiment" := VStr "Negative"]> ∅);
    <["text" := VStr "growth"]> (<["sentiment" := VStr "Positive"]> ∅);
    <["text" := VStr "loss"]> (<["sentiment" := VStr "negative"]> ∅);
    <["text" := VStr "none"]> (<["sentiment" := VNone]> ∅) ].

(** A world to run the notebook in.  The API answers with status
    [bad_status] for the filing of [bad_ticker] and with 200 for every
    other one; [raise_for_status] raises from 400 on. *)
Definition demo_with (bad_ticker : string) (bad_status : nat) : Externals := {|
  getcwd := fun _ => Ok "/home/user";
  path_exists := fun _ _ => Ok false;
  mkdir := fun _ _ => Ok tt;
  get_form_by_ticker := fun _ ticker _ _ _ => Ok ("form of " ++ ticker);
  write := fun _ _ _ => Ok tt;
  get_version := fun _ => Ok "0.2.0";
  open := fun _ filename => Ok filename;
  post := fun _ _ text_files _ =>
    Ok {| status_code :=
            if String.eqb text_files ("./xbrl-forms/" ++ bad_ticker ++ "-10k.xbrl")
            then bad_status else 200;
          content := text_files |};
  raise_for_status := fun _ response =>
    if (400 <=? status_code response)%nat
    then Raise (LibraryError "requests" "HTTPError")
    else Ok tt;
  json := fun _ response =>
    Ok (<["RISK_FACTORS" := VList [VStr (content response)]]> ∅);
  sleep := fun _ _ => Ok tt;
  isd_to_elements := fun _ sections =>
    match sections with
    | VList [VStr t] =>
        Ok [ {| element_id := t; category := "NarrativeText"; text := t;
                metadata := [] |} ]
    | _ => Ok []
    end;
  pipeline := fun _ _ _ => Ok tt;
  infer := fun _ _ texts =>
    Ok (map (fun _ => {| label := "NEGATIVE"; score := (99 # 100)%Q |}) texts);
  stage_for_label_studio := fun _ elements annotations =>
    Staging.stage_for_label_studio elements annotations;
  dump := fun _ _ _ => Ok tt;
  load := fun _ _ =>
    Ok [ <["text" := VStr "risk"]> (<["sentiment" := VStr "Negative"]> ∅);
         <["text" := VStr "growth"]> (<["sentiment" := VStr "Positive"]> ∅) ];
  from_dict := fun _ _ _ => Ok tt;
  model_from_pretrained := fun _ _ _ => Ok tt;
  tokenizer_from_pretrained := fun _ _ => Ok tt;
  dataset_map := fun _ _ => Ok tt;
  DataCollatorWithPadding := fun _ => Ok tt;
  Trainer := fun _ => Ok tt;
  train := fun _ => Ok tt;
  save_model := fun _ _ => Ok tt;
  stage_for_transformers := fun _ elements =>
    Staging.stage_for_transformers (fun _ => 1%nat) 510 elements
|}.

Definition demo : Externals := demo_with "" 200.

End SEC.

(** * Properties of the notebooks *)

Open Scope list_scope.

(** ** Running the monad *)

Section Monad.
Context {C : Type}.

Lemma bind_unfold {A B} (m : M C A) (k : A -> M C B) (s : state C) :
  (m ≫= k) s = match m s with
               | (Ok a, s') => k a s'
               | (Raise e, s') => (Raise e, s')
               end.
Proof. reflexivity. Qed.

Lemma emits_ret {A} (a : A) (P : list (C * option exn) -> result A -> Prop) :
  P [] (Ok a) -> emits (ret a) P.
Proof. intros H s. exists []. cbn. rewrite app_nil_r. auto. Qed.

Lemma emits_mret {A} (a : A) (P : list (C * option exn) -> result A -> Prop) :
  P [] (Ok a) -> emits (mret a) P.
Proof. apply emits_ret. Qed.

Lemma emits_lift {A} (r : result A)
  (P : list (C * option exn) -> result A -> Prop) :
  P [] r -> emits (lift r) P.
Proof. intros H s. exists []. cbn. rewrite app_nil_r. auto. Qed.

Lemma emits_extcall {A} (c : C) (f : list (C * option exn) -> result A)
  (P : list (C * option exn) -> result A -> Prop) :
  (forall r, P [(c, outcome r)] r) -> emits (extcall c f) P.
Proof. intros H s. eexists. cbn. split; [reflexivity|apply H]. Qed.

Lemma emits_deref (r : positive)
  (P : list (C * option exn) -> result (gmap string value) -> Prop) :
  (forall d, P [] (Ok d)) -> emits (deref r) P.
Proof. intros H s. exists []. cbn. rewrite app_nil_r. auto. Qed.

Lemma emits_setitem (r : positive) (k : string) (v : value)
  (P : list (C * option exn) -> result unit -> Prop) :
  P [] (Ok tt) -> emits (setitem r k v) P.
Proof. intros H s. exists []. cbn. rewrite app_nil_r. auto. Qed.

Lemma emits_alloc (d : gmap string value)
  (P : list (C * option exn) -> result positive -> Prop) :
  (forall r, P [] (Ok r)) -> emits (alloc d) P.
Proof. intros H s. exists []. cbn. rewrite app_nil_r. auto. Qed.

Lemma emits_bind {A B} (m : M C A) (k : A -> M C B)
  (P1 : list (C * option exn) -> result A -> Prop)
  (P2 : A -> list (C * option exn) -> result B -> Prop)
  (P : list (C * option exn) -> result B -> Prop) :
  emits m P1 -> (forall a, emits (k a) (P2 a)) ->
  (forall new e, P1 new (Raise e) -> P new (Raise e)) ->
  (forall new1 a new2 r, P1 new1 (Ok a) -> P2 a new2 r -> P (new1 ++ new2) r) ->
  emits (m ≫= k) P.
Proof.
  intros Hm Hk Hraise Hok s. rewrite bind_unfold.
  destruct (Hm s) as (new1 & Hlog1 & H1).
  destruct (m s) as [[a|e] s1]; cbn [fst snd] in *.
  - destruct (Hk a s1) as (new2 & Hlog2 & H2).
    exists (new1 ++ new2). rewrite Hlog2, Hlog1, app_assoc. eauto.
  - exists new1. eauto.
Qed.

Lemma emits_weaken {A} (m : M C A)
  (P P' : list (C * option exn) -> result A -> Prop) :
  emits m P -> (forall new r, P new r -> P' new r) -> emits m P'.
Proof.
  intros Hm Himp s. destruct (Hm s) as (new & Hlog & H). eauto.
Qed.

Lemma journal_eq {A} (m : M C A) (s : state C) (new : list (C * option exn)) :
  log (snd (m s)) = log s ++ new -> journal m s = new.
Proof. intros E. unfold journal. rewrite E. apply drop_app_length. Qed.

(** *** Exceptions are not caught *)

Lemma uncaught_nil (o : option exn) : uncaught (C := C) [] o.
Proof. left. constructor. Qed.

Lemma uncaught_call (c : C) (o : option exn) : uncaught [(c, o)] o.
Proof.
  destruct o as [e|].
  - right. exists [], c, e. repeat split. constructor.
  - left. repeat constructor.
Qed.

Lemma uncaught_app (new1 new2 : list (C * option exn)) (o : option exn) :
  uncaught new1 None -> uncaught new2 o -> uncaught (new1 ++ new2) o.
Proof.
  intros [H1|(init & c & e & _ & _ & Habs)] H2; [|discriminate].
  destruct H2 as [H2|(init & c & e & -> & Hinit & ->)].
  - left. apply Forall_app. auto.
  - right. exists (new1 ++ init), c, e. rewrite app_assoc.
    repeat split. apply Forall_app. auto.
Qed.

Lemma propagates_ret {A} (a : A) : propagates (C := C) (ret a).
Proof. apply emits_ret, uncaught_nil. Qed.

Lemma propagates_mret {A} (a : A) : propagates (C := C) (mret a).
Proof. apply emits_ret, uncaught_nil. Qed.

Lemma propagates_lift {A} (r : result A) : propagates (C := C) (lift r).
Proof. apply emits_lift, uncaught_nil. Qed.

Lemma propagates_extcall {A} (c : C) (f : list (C * option exn) -> result A) :
  propagates (extcall c f).
Proof. apply emits_extcall. intros r. apply uncaught_call. Qed.

Lemma propagates_deref (r : positive) : propagates (C := C) (deref r).
Proof. apply emits_deref. intros d. apply uncaught_nil. Qed.

Lemma propagates_setitem (r : positive) (k : string) (v : value) :
  propagates (C := C) (setitem r k v).
Proof. apply emits_setitem, uncaught_nil. Qed.

Lemma propagates_alloc (d : gmap string value) : propagates (C := C) (alloc d).
Proof. apply emits_alloc. intros r. apply uncaught_nil. Qed.

Lemma propagates_bind {A B} (m : M C A) (k : A -> M C B) :
  propagates m -> (forall a, propagates (k a)) -> propagates (m ≫= k).
Proof.
  intros Hm Hk.
  apply (emits_bind m k (fun new r => uncaught new (outcome r))
           (fun _ new r => uncaught new (outcome r))); [exact Hm|exact Hk| |].
  - intros new e H. exact H.
  - intros new1 a new2 r H1 H2. apply uncaught_app; assumption.
Qed.

Lemma propagates_for_each {A} (body : A -> M C unit) (l : list A) :
  (forall x, propagates (body x)) -> propagates (for_each body l).
Proof.
  intros Hbody. induction l as [|x l IH]; cbn [for_each].
  - apply propagates_ret.
  - apply (propagates_bind (body x) (fun _ => for_each body l)); auto.
Qed.

Lemma propagates_for_append {A B} (body : A -> M C B) (l : list A) :
  (forall x, propagates (body x)) ->
  forall acc, propagates (for_append body acc l).
Proof.
  intros Hbody. induction l as [|x l IH]; intros acc; cbn [for_append].
  - apply propagates_ret.
  - apply (propagates_bind (body x)
             (fun b => for_append body (acc ++ [b]) l)); auto.
Qed.

Lemma propagates_for_extend {A B} (body : A -> M C (list B)) (l : list A) :
  (forall x, propagates (body x)) ->
  forall acc, propagates (for_extend body acc l).
Proof.
  intros Hbody. induction l as [|x l IH]; intros acc; cbn [for_extend].
  - apply propagates_ret.
  - apply (propagates_bind (body x)
             (fun bs => for_extend body (acc ++ bs) l)); auto.
Qed.

Lemma propagates_for_fold {A B} (body : B -> A -> M C B) (l : list A) :
  (forall acc x, propagates (body acc x)) ->
  forall acc, propagates (for_fold body acc l).
Proof.
  intros Hbody. induction l as [|x l IH]; intros acc; cbn [for_fold].
  - apply propagates_ret.
  - apply (propagates_bind (body acc x)
             (fun acc' => for_fold body acc' l)); auto.
Qed.

(** A call that raised is the last call of the run, and what it raised
    is what the run raises. *)
Lemma propagates_last {A} (m : M C A) (s : state C)
  (before after : list (C * option exn)) (c : C) (e : exn) :
  propagates m ->
  journal m s = before ++ (c, Some e) :: after ->
  after = [] /\ fst (m s) = Raise e.
Proof.
  intros Hm Hj. destruct (Hm s) as (new & Hlog & Hun).
  rewrite (journal_eq _ _ _ Hlog) in Hj. subst new.
  destruct Hun as [Hall|(init & c' & e' & Heq & Hinit & Ho)].
  - exfalso. rewrite Forall_app, Forall_cons in Hall.
    destruct Hall as [_ [Habs _]]. discriminate.
  - assert (Hlen : after = [] /\ e' = e).
    { destruct after as [|x after] using rev_ind.
      - change (before ++ [(c, Some e)] = init ++ [(c', Some e')]) in Heq.
        apply app_inj_tail in Heq. destruct Heq as [_ Heq].
        split; congruence.
      - exfalso. clear IHafter.
        rewrite app_comm_cons, app_assoc in Heq.
        apply app_inj_tail in Heq. destruct Heq as [<- _].
        rewrite Forall_app, Forall_cons in Hinit.
        destruct Hinit as [_ [Habs _]]. discriminate. }
    destruct Hlen as [-> ->]. split; [reflexivity|].
    destruct (fst (m s)); cbn in Ho; congruence.
Qed.

End Monad.



(** ** Comparisons of floats *)

Lemma float_lt_spec (x y : Q) : float_lt x y = true <-> (x < y)%Q.
Proof.
  unfold float_lt. rewrite Qlt_alt.
  destruct (x ?= y)%Q; split; congruence.
Qed.

Lemma float_eq_spec (x y : Q) : float_eq x y = true <-> (x == y)%Q.
Proof.
  unfold float_eq. rewrite Qeq_alt.
  destruct (x ?= y)%Q; split; congruence.
Qed.

Lemma sentiment_label_sign (p : Q) :
  let label := Elastic.sentiment_label p in
  (label = "negative" <-> (p < 0)%Q) /\
  (label = "neutral" <-> (p == 0)%Q) /\
  (label = "positive" <-> (0 < p)%Q) /\
  (label = "negative" \/ label = "neutral" \/ label = "positive").
Proof.
  unfold Elastic.sentiment_label.
  destruct (float_lt p 0) eqn:Hlt.
  - apply float_lt_spec in Hlt.
    repeat split; try discriminate; auto; intros H; exfalso.
    + rewrite H in Hlt. revert Hlt. apply Qlt_irrefl.
    + apply (Qlt_irrefl p). eapply Qlt_trans; eauto.
  - assert (Hge : ~ (p < 0)%Q) by (rewrite <- float_lt_spec; congruence).
    destruct (float_eq p 0) eqn:Heq.
    + apply float_eq_spec in Heq.
      repeat split; try discriminate; auto; intros H; exfalso.
      * contradiction.
      * rewrite Heq in H. revert H. apply Qlt_irrefl.
    + assert (Hne : ~ (p == 0)%Q) by (rewrite <- float_eq_spec; congruence).
      repeat split; try discriminate; auto; try contradiction.
      intros _. destruct (Qlt_le_dec 0 p) as [|Hle]; [assumption|].
      exfalso. apply Qle_lt_or_eq in Hle. tauto.
Qed.

(** ** The stable sort *)

Section StableSort.
Context {A : Type}.
Implicit Types (x y : Q * A) (l : list (Q * A)).

Lemma key_then_le (R : Q * A -> Q * A -> Prop) x y :
  key_then R x y -> (fst y <= fst x)%Q.
Proof.
  intros [Hlt|[Heq _]].
  - apply Qlt_le_weak, Hlt.
  - rewrite Heq. apply Qle_refl.
Qed.

Lemma insert_desc_perm x l : Permutation (insert_desc x l) (x :: l).
Proof.
  induction l as [|y l IH]; cbn; [reflexivity|].
  destruct (float_lt (fst x) (fst y)); [|reflexivity].
  rewrite IH. apply perm_swap.
Qed.

Lemma sort_desc_perm l : Permutation (sort_desc l) l.
Proof.
  induction l as [|x l IH]; cbn; [reflexivity|].
  rewrite insert_desc_perm. constructor. exact IH.
Qed.

Lemma insert_desc_sorted (R : Q * A -> Q * A -> Prop) x l :
  StronglySorted (key_then R) l -> Forall (R x) l ->
  StronglySorted (key_then R) (insert_desc x l).
Proof.
  induction l as [|y l IH]; intros Hs Hx; cbn.
  - repeat constructor.
  - apply StronglySorted_inv in Hs. destruct Hs as [Hs Hy].
    apply Forall_cons in Hx. destruct Hx as [Hxy Hx].
    destruct (float_lt (fst x) (fst y)) eqn:Hlt.
    + apply float_lt_spec in Hlt. constructor; [auto|].
      rewrite (insert_desc_perm x l). constructor; [left; exact Hlt|exact Hy].
    + assert (Hle : (fst y <= fst x)%Q).
      { apply Qnot_lt_le. rewrite <- float_lt_spec. congruence. }
      constructor; [constructor; assumption|].
      assert (Hbelow : Forall (fun z => (fst z <= fst x)%Q /\ R x z) (y :: l)).
      { constructor; [auto|].
        rewrite Forall_forall in Hy, Hx. apply Forall_forall. intros z Hz.
        split; [|auto].
        eapply Qle_trans; [|exact Hle]. eapply key_then_le; eauto. }
      eapply Forall_impl; [exact Hbelow|].
      intros z [Hz Hr]. apply Qle_lt_or_eq in Hz. destruct Hz as [Hz|Hz].
      * left. exact Hz.
      * right. split; [symmetry; exact Hz|exact Hr].
Qed.

(** The sort is stable: a list that [R] orders comes out ordered by key
    and, among equal keys, still by [R]. *)
Lemma sort_desc_stable (R : Q * A -> Q * A -> Prop) l :
  StronglySorted R l -> StronglySorted (key_then R) (sort_desc l).
Proof.
  induction l as [|x l IH]; intros Hs; cbn; [constructor|].
  apply StronglySorted_inv in Hs. destruct Hs as [Hs Hx].
  apply insert_desc_sorted; [auto|].
  rewrite (sort_desc_perm l). exact Hx.
Qed.

End StableSort.

Lemma StronglySorted_map {A B} (f : A -> B) (R : B -> B -> Prop) (l : list A) :
  StronglySorted (fun a b => R (f a) (f b)) l -> StronglySorted R (map f l).
Proof.
  induction 1 as [|a l Hs IH Ha]; cbn; constructor; [exact IH|].
  apply Forall_map. exact Ha.
Qed.

Lemma StronglySorted_impl {A} (R R' : A -> A -> Prop) (P : A -> Prop)
  (l : list A) :
  (forall a b, P a -> P b -> R a b -> R' a b) -> Forall P l ->
  StronglySorted R l -> StronglySorted R' l.
Proof.
  intros Himp HP Hs. induction Hs as [|a l Hs IH Ha]; constructor.
  - apply IH. eapply Forall_inv_tail, HP.
  - apply Forall_cons in HP. destruct HP as [Pa Pl].
    rewrite Forall_forall in Ha, Pl. apply Forall_forall.
    intros b Hb. apply Himp; auto.
Qed.

(** ** The two sorts of the query cell *)

Section QuerySort.
Import Elastic.

Lemma numeric_items (hit : dict) :
  numeric hit = true ->
  number_item hit "polarity" = Ok (score "polarity" hit) /\
  number_item hit "subjectivity" = Ok (score "subjectivity" hit).
Proof.
  unfold numeric, score.
  destruct (number_item hit "polarity"); [|discriminate].
  destruct (number_item hit "subjectivity"); [auto|discriminate].
Qed.

Lemma decorate_tag (k : string) (l : list dict) :
  Forall (fun hit => number_item hit k = Ok (score k hit)) l ->
  decorate k l = Ok (map (tag k) l).
Proof.
  induction 1 as [|hit l Hhit _ IH]; cbn; [reflexivity|].
  rewrite Hhit. cbn. rewrite IH. reflexivity.
Qed.

Lemma sorted_reverse_tag (k : string) (l : list dict) :
  Forall (fun hit => number_item hit k = Ok (score k hit)) l ->
  sorted_reverse k l = Ok (map snd (sort_desc (map (tag k) l))).
Proof.
  intros H. unfold sorted_reverse. rewrite (decorate_tag k l H). reflexivity.
Qed.

Lemma sort_desc_tagged (k : string) (l : list dict) :
  Forall (fun x => fst x = score k (snd x)) (sort_desc (map (tag k) l)).
Proof.
  rewrite (sort_desc_perm (map (tag k) l)).
  apply Forall_map, Forall_forall. reflexivity.
Qed.

Lemma sorted_reverse_perm (k : string) (l : list dict) :
  Permutation (map snd (sort_desc (map (tag k) l))) l.
Proof.
  rewrite (sort_desc_perm (map (tag k) l)), map_map. cbn.
  rewrite map_id. reflexivity.
Qed.

(** One sort moves a list that [R] ordered into the order "key [k] first,
    then [R]". *)
Lemma sorted_reverse_stable (k : string) (R : dict -> dict -> Prop)
  (l : list dict) :
  StronglySorted R l ->
  StronglySorted
    (fun a b => (score k b < score k a)%Q \/
                ((score k a == score k b)%Q /\ R a b))
    (map snd (sort_desc (map (tag k) l))).
Proof.
  intros Hs. apply StronglySorted_map.
  eapply StronglySorted_impl with
    (R := key_then (fun x y => R (snd x) (snd y)))
    (P := fun x => fst x = score k (snd x)).
  - intros x y Hx Hy. unfold key_then. rewrite Hx, Hy. auto.
  - apply sort_desc_tagged.
  - apply sort_desc_stable.
    apply (StronglySorted_map (tag k) (fun x y => R (snd x) (snd y))).
    exact Hs.
Qed.

Lemma StronglySorted_trivial {A} (l : list A) :
  StronglySorted (fun _ _ => True) l.
Proof.
  induction l; constructor; [assumption|]. apply Forall_forall. auto.
Qed.

Lemma numeric_perm (l l' : list dict) :
  Permutation l l' -> forallb numeric l = true -> forallb numeric l' = true.
Proof.
  intros Hp. rewrite !forallb_forall. intros H hit Hin.
  apply H. rewrite Hp. exact Hin.
Qed.

(** C8. On hits that carry numbers under [polarity] and [subjectivity],
    the two successive sorts of the query cell return the same hits
    ordered by subjectivity, highest first, and among hits of equal
    subjectivity by polarity, highest first. *)
Theorem sorted_elements_subjectivity_then_polarity (response : list dict) :
  forallb numeric response = true ->
  exists hits : list dict,
    sorted_elements response = Ok hits /\
    Permutation response hits /\
    StronglySorted subjectivity_then_polarity hits.
Proof.
  intros Hnum.
  set (by_polarity := map snd (sort_desc (map (tag "polarity") response))).
  assert (Hp1 : Permutation by_polarity response)
    by apply sorted_reverse_perm.
  assert (Hnum1 : forallb numeric by_polarity = true)
    by (eapply numeric_perm; [symmetry; exact Hp1|exact Hnum]).
  exists (map snd (sort_desc (map (tag "subjectivity") by_polarity))).
  split; [|split].
  - unfold sorted_elements. rewrite sorted_reverse_tag.
    + cbn. fold by_polarity. apply sorted_reverse_tag.
      apply Forall_forall. intros hit Hin.
      rewrite forallb_forall in Hnum1.
      apply numeric_items, Hnum1, list_elem_of_In, Hin.
    + apply Forall_forall. intros hit Hin.
      rewrite forallb_forall in Hnum.
      apply numeric_items, Hnum, list_elem_of_In, Hin.
  - rewrite sorted_reverse_perm. symmetry. exact Hp1.
  - pose proof (sorted_reverse_stable "polarity" (fun _ _ => True) response
                  (StronglySorted_trivial response)) as H1.
    fold by_polarity in H1.
    pose proof (sorted_reverse_stable "subjectivity" _ by_polarity H1) as H2.
    eapply StronglySorted_impl with (P := fun _ => True); [|apply Forall_forall; auto|exact H2].
    intros a b _ _ [Hlt|[Heq Hpol]]; [left; exact Hlt|right].
    split; [exact Heq|].
    destruct Hpol as [Hlt|[Heq' _]].
    + apply Qlt_le_weak, Hlt.
    + rewrite Heq'. apply Qle_refl.
Qed.

End QuerySort.

Lemma sorted_elements_witness :
  exists hits : list dict,
    Elastic.sorted_elements Elastic.demo_hits = Ok hits /\
    Permutation Elastic.demo_hits hits /\
    StronglySorted Elastic.subjectivity_then_polarity hits.
Proof.
  apply (sorted_elements_subjectivity_then_polarity Elastic.demo_hits).
  vm_compute. reflexivity.
Defined.

(** On the six hits of [demo_hits]: the most subjective first, and the
    three hits of subjectivity 0.4208 by polarity, the two of equal
    polarity in the order the query returned them. *)
Example sorted_elements_demo :
  (hits ← Elastic.sorted_elements Elastic.demo_hits;
   Ok (map (fun hit : dict => hit !! "text") hits))
  = Ok (map (fun t => Some (VStr t)) ["d"; "c"; "f"; "b"; "e"; "a"]).
Proof. vm_compute. reflexivity. Qed.

(** ** The loading loop of the Elasticsearch notebook *)

Section ElasticLoad.
Import Elastic.
Context `{X : Externals}.

Lemma index_body_run (element : loc) (s : state call) :
  index_body element s =
  match (heap s !!! element) !! "text" with
  | None => (Raise (KeyError "text"), s)
  | Some t =>
      let r := TextBlob (log s) t in
      let h := log s ++ [(TextBlob_ t, outcome r)] in
      match r with
      | Raise e => (Raise e, State (heap s) (next s) h)
      | Ok scores =>
          let document := annotated scores (heap s !!! element) in
          let r' := es_client_index h index_name document in
          (r', State (<[element := document]> (heap s)) (next s)
                 (h ++ [(index_ index_name document, outcome r')]))
      end
  end.
Proof.
  unfold index_body. rewrite bind_unfold. unfold deref at 1.
  rewrite bind_unfold. unfold lift, getitem.
  destruct ((heap s !!! element) !! "text") as [t|] eqn:Et; [|reflexivity].
  rewrite bind_unfold. unfold extcall at 1. cbn [log heap next].
  destruct (TextBlob (log s) t) as [[p j]|e] eqn:Eb; [|reflexivity].
  cbn [outcome fst snd].
  rewrite bind_unfold. unfold setitem at 1. cbn [heap next log].
  rewrite bind_unfold. unfold setitem at 1. cbn [heap next log].
  rewrite bind_unfold. unfold deref at 1. cbn [heap next log].
  rewrite !lookup_total_insert_eq, insert_insert_eq.
  rewrite bind_unfold. unfold number_item.
  rewrite lookup_insert_ne by discriminate. rewrite lookup_insert_eq.
  rewrite bind_unfold.
  unfold annotated, sentiment_label. cbn [fst snd].
  set (d2 := <["subjectivity":=_]> _).
  assert (Hset : forall label,
    (setitem element "sentiment" (VStr label)
       ≫= λ _ : (), deref element
       ≫= λ document : dict, extcall (index_ index_name document)
             (λ h : history, es_client_index h index_name document))
      {| heap := <[element:=d2]> (heap s); next := next s;
         log := log s ++ [(TextBlob_ t, None)] |} =
    (es_client_index (log s ++ [(TextBlob_ t, None)]) index_name
       (<["sentiment":=VStr label]> d2),
     {| heap := <[element:=<["sentiment":=VStr label]> d2]> (heap s);
        next := next s;
        log := (log s ++ [(TextBlob_ t, None)]) ++
               [(index_ index_name (<["sentiment":=VStr label]> d2),
                 outcome (es_client_index (log s ++ [(TextBlob_ t, None)])
                            index_name (<["sentiment":=VStr label]> d2)))] |})).
  { intros label. rewrite bind_unfold. unfold setitem. cbn [heap next log].
    rewrite bind_unfold. unfold deref. cbn [heap next log].
    rewrite !lookup_total_insert_eq, insert_insert_eq. reflexivity. }
  destruct (float_lt (round4 p) 0); [apply Hset|].
  destruct (float_eq (round4 p) 0); apply Hset.
Qed.

Lemma annotated_labelled (scores : Q * Q) (d : dict) :
  labelled_by_sign (annotated scores d).
Proof.
  exists (round4 (fst scores)), (sentiment_label (round4 (fst scores))).
  unfold annotated.
  rewrite lookup_insert_ne, lookup_insert_ne, lookup_insert_eq by discriminate.
  rewrite lookup_insert_eq.
  split; [reflexivity|]. split; [reflexivity|].
  apply sentiment_label_sign.
Qed.

Lemma annotated_polarity (h : history) (t : value) (scores : Q * Q) (d : dict) :
  d !! "text" = Some t -> TextBlob h t = Ok scores ->
  polarity_from_TextBlob (annotated scores d).
Proof.
  intros Ht Hs. exists h, t, scores. unfold annotated.
  split; [|split; [assumption|]].
  - rewrite lookup_insert_ne, lookup_insert_ne, lookup_insert_ne by discriminate.
    assumption.
  - rewrite lookup_insert_ne, lookup_insert_ne, lookup_insert_eq by discriminate.
    reflexivity.
Qed.

Lemma index_loop_documents (l : list loc) :
  forall s : state call, exists new : history,
    log (snd (index_loop l s)) = log s ++ new /\
    Forall (fun d => labelled_by_sign d /\ polarity_from_TextBlob d)
      (indexed_documents new).
Proof.
  induction l as [|r l IH]; intros s.
  - exists []. cbn. rewrite app_nil_r. auto.
  - unfold index_loop. cbn [for_each]. fold (index_loop l).
    change (bind (index_body r) (fun _ => index_loop l) s)
      with ((index_body r ≫= fun _ => index_loop l) s).
    rewrite bind_unfold, index_body_run.
    destruct ((heap s !!! r) !! "text") as [t|] eqn:Et.
    2:{ exists []. cbn. rewrite app_nil_r. auto. }
    cbv zeta.
    destruct (TextBlob (log s) t) as [scores|e] eqn:Eb.
    2:{ eexists. cbn [snd log]. split; [reflexivity|]. cbn. constructor. }
    cbn [outcome].
    set (document := annotated scores (heap s !!! r)).
    assert (Hdoc : labelled_by_sign document /\ polarity_from_TextBlob document).
    { split; [apply annotated_labelled|]. eapply annotated_polarity; eauto. }
    destruct (es_client_index _ index_name document) as [[]|e] eqn:Ei.
    + match goal with |- context [index_loop l ?s1] =>
        destruct (IH s1) as (new & Hlog & Hall)
      end.
      exists ([(TextBlob_ t, None); (index_ index_name document, None)] ++ new).
      split.
      * rewrite Hlog. cbn [log outcome]. rewrite <- !app_assoc. reflexivity.
      * cbn. constructor; assumption.
    + eexists. cbn [snd log]. rewrite <- app_assoc. split; [reflexivity|].
      cbn. constructor; [assumption|constructor].
Qed.

Lemma indexed_documents_app (h1 h2 : history) :
  indexed_documents (h1 ++ h2) = indexed_documents h1 ++ indexed_documents h2.
Proof. apply omap_app. Qed.

Lemma annotated_other (scores : Q * Q) (d : dict) (k : string) :
  k <> "polarity" -> k <> "subjectivity" -> k <> "sentiment" ->
  annotated scores d !! k = d !! k.
Proof.
  intros Hp Hj Hs. unfold annotated.
  rewrite !lookup_insert_ne by congruence. reflexivity.
Qed.

Lemma annotated_fields (h0 : gmap loc dict) (h : history) (t : value)
  (scores : Q * Q) (d : dict) (r : loc) :
  TextBlob h t = Ok scores ->
  fields_from h0 derived_by_notebook d r ->
  fields_from h0 derived_by_notebook (annotated scores d) r.
Proof.
  intros Hb Hd k v. unfold annotated.
  rewrite !lookup_insert. repeat case_decide; try (apply Hd).
  all: intros [= <-]; right; exists h, t, scores; auto.
Qed.

(** What one run of the loading loop does to the log, to its result and
    to the store. *)
Lemma index_loop_spec (h0 : gmap loc dict) (l : list loc) :
  forall s : state call, exists new : history,
    log (snd (index_loop l s)) = log s ++ new /\
    (fst (index_loop l s) = Ok tt ->
     length (indexed_documents new) = length l) /\
    (forall e, fst (index_loop l s) = Raise e ->
       e = KeyError "text" \/ exists c, last new = Some (c, Some e)) /\
    (forall r k, k <> "polarity" -> k <> "subjectivity" -> k <> "sentiment" ->
       (heap (snd (index_loop l s)) !!! r) !! k = (heap s !!! r) !! k) /\
    ((forall r, fields_from h0 derived_by_notebook (heap s !!! r) r) ->
     Forall (fun document =>
               exists r, fields_from h0 derived_by_notebook document r)
       (indexed_documents new)).
Proof.
  induction l as [|r0 l IH]; intros s.
  - exists []. cbn. rewrite app_nil_r.
    repeat split; auto; discriminate.
  - unfold index_loop. cbn [for_each]. fold (index_loop l).
    change (bind (index_body r0) (fun _ => index_loop l) s)
      with ((index_body r0 ≫= fun _ => index_loop l) s).
    rewrite bind_unfold, index_body_run.
    destruct ((heap s !!! r0) !! "text") as [t|] eqn:Et.
    2:{ exists []. cbn. rewrite app_nil_r.
        repeat split; auto; try discriminate.
        intros e [= <-]. auto. }
    cbv zeta.
    destruct (TextBlob (log s) t) as [scores|e0] eqn:Eb.
    2:{ eexists. cbn [snd fst log heap outcome].
        split; [reflexivity|]. split; [discriminate|].
        split; [|split; [auto|intros _; cbn; constructor]].
        intros e [= <-]. right. eexists. reflexivity. }
    cbn [outcome].
    set (document := annotated scores (heap s !!! r0)).
    assert (Hframe : forall r k,
      k <> "polarity" -> k <> "subjectivity" -> k <> "sentiment" ->
      (<[r0:=document]> (heap s) !!! r) !! k = (heap s !!! r) !! k).
    { intros r k Hp Hj Hs. destruct (decide (r0 = r)) as [<-|Hne].
      - rewrite lookup_total_insert_eq. apply annotated_other; assumption.
      - rewrite lookup_total_insert_ne by assumption. reflexivity. }
    assert (Hfields : (forall r, fields_from h0 derived_by_notebook
                                   (heap s !!! r) r) ->
      forall r, fields_from h0 derived_by_notebook
                  (<[r0:=document]> (heap s) !!! r) r).
    { intros Hinv r. destruct (decide (r0 = r)) as [<-|Hne].
      - rewrite lookup_total_insert_eq. eapply annotated_fields; eauto.
      - rewrite lookup_total_insert_ne by assumption. apply Hinv. }
    destruct (es_client_index _ index_name document) as [[]|e0] eqn:Ei.
    + match goal with |- context [index_loop l ?s1] =>
        destruct (IH s1) as (new & Hlog & Hcount & Herr & Hheap & Hdocs)
      end.
      exists ([(TextBlob_ t, None); (index_ index_name document, None)] ++ new).
      cbn [heap log outcome] in *.
      split; [rewrite Hlog, <- !app_assoc; reflexivity|].
      split; [|split; [|split]].
      * intros Hok. rewrite indexed_documents_app, length_app, (Hcount Hok).
        reflexivity.
      * intros e He. destruct (Herr e He) as [->|[c Hc]]; [auto|].
        right. exists c. rewrite last_app, Hc. reflexivity.
      * intros r k Hp Hj Hs. rewrite Hheap by assumption. apply Hframe; auto.
      * intros Hinv. rewrite indexed_documents_app. apply Forall_app. split.
        -- cbn. constructor; [|constructor].
           exists r0. eapply annotated_fields; eauto.
        -- apply Hdocs, Hfields, Hinv.
    + eexists. cbn [snd fst log heap outcome]. rewrite <- app_assoc.
      split; [reflexivity|]. split; [discriminate|].
      split; [|split].
      * intros e [= <-]. right. eexists. reflexivity.
      * apply Hframe.
      * intros Hinv. cbn. constructor; [|constructor].
        exists r0. eapply annotated_fields; eauto.
Qed.

Lemma clean_body_run (element_dict : loc) (s : state call) :
  clean_body element_dict s =
  match (heap s !!! element_dict) !! "text" with
  | None => (Raise (KeyError "text"), s)
  | Some t =>
      let c := clean_extra_whitespace (log s) t in
      let h := log s ++ [(clean_extra_whitespace_ t, outcome c)] in
      match c with
      | Raise e => (Raise e, State (heap s) (next s) h)
      | Ok cleaned =>
          (Ok element_dict,
           State (<[element_dict :=
                      <["text" := VStr cleaned]> (heap s !!! element_dict)]>
                    (heap s)) (next s) h)
      end
  end.
Proof.
  unfold clean_body. rewrite bind_unfold. unfold deref at 1.
  rewrite bind_unfold. unfold lift, getitem.
  destruct ((heap s !!! element_dict) !! "text") as [t|]; [|reflexivity].
  rewrite bind_unfold. unfold extcall at 1. cbn [log heap next].
  destruct (clean_extra_whitespace (log s) t) as [cleaned|e]; reflexivity.
Qed.

(** The same for the cleaning loop. *)
Lemma clean_loop_spec (l : list loc) :
  forall (acc : list loc) (s : state call), exists new : history,
    log (snd (for_append clean_body acc l s)) = log s ++ new /\
    indexed_documents new = [] /\
    (forall cleaned, fst (for_append clean_body acc l s) = Ok cleaned ->
       cleaned = acc ++ l) /\
    (forall e, fst (for_append clean_body acc l s) = Raise e ->
       e = KeyError "text" \/ exists c, last new = Some (c, Some e)) /\
    (forall r k, k <> "text" ->
       (heap (snd (for_append clean_body acc l s)) !!! r) !! k
       = (heap s !!! r) !! k).
Proof.
  induction l as [|r0 l IH]; intros acc s.
  - exists []. cbn. rewrite !app_nil_r.
    repeat split; auto; try discriminate. intros cleaned [= <-]. reflexivity.
  - cbn [for_append].
    change (bind (clean_body r0)
              (fun b => for_append clean_body (acc ++ [b]) l) s)
      with ((clean_body r0 ≫=
               fun b => for_append clean_body (acc ++ [b]) l) s).
    rewrite bind_unfold, clean_body_run.
    destruct ((heap s !!! r0) !! "text") as [t|] eqn:Et.
    2:{ exists []. cbn. rewrite app_nil_r.
        repeat split; auto; try discriminate.
        intros e [= <-]. auto. }
    cbv zeta.
    destruct (clean_extra_whitespace (log s) t) as [cleaned|e0] eqn:Ec.
    2:{ eexists. cbn [snd fst log heap outcome].
        split; [reflexivity|]. repeat split; auto; try discriminate.
        intros e [= <-]. right. eexists. reflexivity. }
    cbn [outcome].
    match goal with |- context [for_append clean_body _ l ?s1] =>
      destruct (IH (acc ++ [r0]) s1) as (new & Hlog & Hnone & Hres & Herr & Hheap)
    end.
    exists ([(clean_extra_whitespace_ t, None)] ++ new).
    cbn [heap log] in *.
    split; [rewrite Hlog, <- !app_assoc; reflexivity|].
    split; [exact Hnone|]. split; [|split].
    + intros res Hok. rewrite (Hres res Hok), <- app_assoc. reflexivity.
    + intros e He. destruct (Herr e He) as [->|[c Hc]]; [auto|].
      right. exists c. rewrite last_app, Hc. reflexivity.
    + intros r k Hk. rewrite Hheap by assumption.
      destruct (decide (r0 = r)) as [<-|Hne].
      * rewrite lookup_total_insert_eq, lookup_insert_ne by congruence.
        reflexivity.
      * rewrite lookup_total_insert_ne by assumption. reflexivity.
Qed.

(** C2. Every document that the loading loop gives to the index carries a
    [sentiment] that is "negative" exactly when its [polarity] is below
    zero, "neutral" exactly when it is zero and "positive" exactly when it
    is above zero, hence one of the three; and that [polarity] is the
    polarity TextBlob answered for the text of the document, rounded to
    four decimal places. *)
Theorem load_sentiment_is_sign_of_polarity (l : list loc) (s : state call) :
  Forall (fun d => labelled_by_sign d /\ polarity_from_TextBlob d)
    (indexed_documents (journal (index_loop l) s)).
Proof.
  destruct (index_loop_documents l s) as (new & Hlog & Hall).
  rewrite (journal_eq _ _ _ Hlog). exact Hall.
Qed.


(** C3 as amended. The cleaning loop and the loading loop leave every
    field of every record as it was, except the four they write: [text],
    [polarity], [subjectivity] and [sentiment].  Of a record they require
    nothing but a [text]: an exception that no library call raised is the
    [KeyError] of a record without one. *)
Theorem records_change_in_written_fields_only (l : list loc) (s : state call) :
  (forall (r : loc) (k : string), k ∉ written_keys ->
     (heap (snd (clean_then_load l s)) !!! r) !! k = (heap s !!! r) !! k) /\
  (forall e : exn, fst (clean_then_load l s) = Raise e ->
     e = KeyError "text" \/
     exists c, last (journal (clean_then_load l) s) = Some (c, Some e)).
Proof.
  unfold clean_then_load, clean_loop.
  destruct (clean_loop_spec l [] s) as (new1 & Hlog1 & _ & Hres & Herr1 & Hheap1).
  assert (Hkeys : forall k : string, k ∉ written_keys ->
    k <> "text" /\ k <> "polarity" /\ k <> "subjectivity" /\ k <> "sentiment").
  { intros k Hk. unfold written_keys in Hk.
    repeat split; intros ->; apply Hk; set_solver. }
  rewrite bind_unfold.
  assert (Hj : forall (m : M call unit) new,
    log (snd (m s)) = log s ++ new -> journal m s = new)
    by (intros; apply journal_eq; assumption).
  destruct (for_append clean_body [] l s) as [[cleaned|e1] s1] eqn:Hrun;
    cbn [fst snd] in *.
  - destruct (index_loop_spec (heap s1) cleaned s1)
      as (new2 & Hlog2 & _ & Herr2 & Hheap2 & _).
    split.
    + intros r k Hk. destruct (Hkeys k Hk) as (Ht & Hp & Hsj & Hse).
      rewrite Hheap2, Hheap1 by assumption. reflexivity.
    + intros e He. destruct (Herr2 e He) as [->|[c Hc]]; [auto|].
      right. exists c. unfold journal. rewrite bind_unfold, Hrun.
      rewrite Hlog2, Hlog1, <- app_assoc, drop_app_length, last_app, Hc.
      reflexivity.
  - split.
    + intros r k Hk. destruct (Hkeys k Hk) as (Ht & _). apply Hheap1, Ht.
    + intros e [= <-]. destruct (Herr1 e1 eq_refl) as [->|[c Hc]]; [auto|].
      right. exists c. unfold journal. rewrite bind_unfold, Hrun.
      cbn [snd]. rewrite Hlog1, drop_app_length. exact Hc.
Qed.

(** The loading loop gives the index one document for each dictionary of
    the list. *)
Lemma index_loop_one_call_per_element (l : list loc) (s : state call) :
  fst (index_loop l s) = Ok tt ->
  length (indexed_documents (journal (index_loop l) s)) = length l.
Proof.
  destruct (index_loop_spec ∅ l s) as (new & Hlog & Hcount & _).
  rewrite (journal_eq _ _ _ Hlog). exact Hcount.
Qed.

End ElasticLoad.


(** C3, as stated, fails: the loops leave the record with fields it did
    not have. *)
Lemma loading_changes_the_record :
  heap (snd (Elastic.clean_then_load (X := Elastic.demo) [1%positive]
               Elastic.demo_state)) !!! 1%positive
  <> heap Elastic.demo_state !!! 1%positive.
Proof.
  intros H.
  assert (Hnew : (heap (snd (Elastic.clean_then_load (X := Elastic.demo)
                               [1%positive] Elastic.demo_state))
                    !!! 1%positive) !! "sentiment"
                 = Some (VStr "negative"))
    by (vm_compute; reflexivity).
  rewrite H in Hnew. vm_compute in Hnew. discriminate.
Qed.

Lemma records_change_in_written_fields_only_witness :
  (heap (snd (Elastic.clean_then_load (X := Elastic.demo) [1%positive]
                Elastic.demo_state)) !!! 1%positive) !! "element_id"
  = Some (VStr "e1").
Proof.
  rewrite (proj1 (records_change_in_written_fields_only (X := Elastic.demo)
                    [1%positive] Elastic.demo_state) 1%positive "element_id").
  - vm_compute. reflexivity.
  - unfold Elastic.written_keys. rewrite list_elem_of_In. cbn.
    intros [H|[H|[H|[H|[]]]]]; discriminate.
Defined.

(** C6, as stated, fails: two dictionaries are loaded with two calls. *)
Lemma index_is_called_for_each_element :
  length (Elastic.indexed_documents
            (journal (Elastic.index_loop (X := Elastic.demo)
                        [1%positive; 2%positive]) Elastic.demo_state))
  <> 1%nat.
Proof. vm_compute. discriminate. Qed.


(** ** Exceptions reach the top level of every notebook *)

Ltac propagate :=
  repeat first
    [ apply propagates_bind
    | apply propagates_mret
    | apply propagates_ret
    | apply propagates_lift
    | apply propagates_extcall
    | apply propagates_deref
    | apply propagates_setitem
    | apply propagates_alloc
    | apply propagates_for_each
    | apply propagates_for_append
    | apply propagates_for_extend
    | apply propagates_for_fold
    | match goal with
      | |- propagates (if ?b then _ else _) => destruct b
      | |- forall _, _ => intro
      end ].

Section Propagation.

Lemma Elastic_print_top_propagates (hits : list dict) :
  forall ix, propagates (Elastic.print_top ix hits).
Proof.
  induction hits as [|hit rest IH]; intros ix; cbn [Elastic.print_top].
  - apply propagates_ret.
  - unfold Elastic.attribute, Elastic.print. propagate. apply IH.
Qed.

Lemma Elastic_notebook_propagates `{X : Elastic.Externals} :
  propagates Elastic.notebook.
Proof.
  unfold Elastic.notebook, Elastic.cell_partition, Elastic.cell_filter,
    Elastic.cell_convert, Elastic.cell_clean, Elastic.clean_loop,
    Elastic.clean_body, Elastic.cell_connect, Elastic.index_loop,
    Elastic.index_body, Elastic.cell_query, Elastic.cell_print, Elastic.print.
  propagate. apply Elastic_print_top_propagates.
Qed.

Lemma MySQL_notebook_propagates `{X : MySQL.Externals} :
  propagates MySQL.notebook.
Proof.
  unfold MySQL.notebook, MySQL.cell_partition, MySQL.partition_body,
    MySQL.cell_convert, MySQL.cell_engine, MySQL.cell_load, MySQL.cell_read,
    MySQL.display.
  propagate.
Qed.

Lemma SEC_notebook_propagates `{X : SEC.Externals} :
  propagates SEC.notebook.
Proof.
  unfold SEC.notebook, SEC.cell_directory, SEC.cell_fetch, SEC.fetch_body,
    SEC.cell_url, SEC.cell_extract, SEC.extract_body, SEC.cell_elements,
    SEC.elements_body, SEC.cell_pipeline, SEC.cell_annotate,
    SEC.annotate_body, SEC.cell_stage, SEC.cell_dataset, SEC.cell_train,
    SEC.cell_use, SEC.print, SEC.display.
  propagate.
Qed.

(** C4. In every run of each of the three notebooks, a call into a
    library or service that raises is the last call of the run (nothing is
    retried, nothing runs after it), and the exception it raised is, as it
    is, what the run of the notebook raises. *)
Theorem library_errors_reach_top_level (XE : Elastic.Externals)
  (XM : MySQL.Externals) (XS : SEC.Externals) :
  never_caught Elastic.notebook /\
  never_caught MySQL.notebook /\
  never_caught SEC.notebook.
Proof.
  unfold never_caught.
  split; [|split]; intros s before after c e Hj;
    (eapply propagates_last; [|exact Hj]).
  - apply Elastic_notebook_propagates.
  - apply MySQL_notebook_propagates.
  - apply SEC_notebook_propagates.
Qed.

End Propagation.

Lemma library_errors_reach_top_level_witness :
  fst (SEC.notebook (X := SEC.demo_with "nke" 500) initial)
  = Raise (LibraryError "requests" "HTTPError").
Proof.
  destruct (library_errors_reach_top_level Elastic.demo MySQL.demo
              (SEC.demo_with "nke" 500)) as (_ & _ & H).
  refine (proj2 (H initial
    (removelast (journal (SEC.notebook (X := SEC.demo_with "nke" 500)) initial))
    []
    (SEC.raise_for_status_
       {| SEC.status_code := 500; SEC.content := "./xbrl-forms/nke-10k.xbrl" |})
    (LibraryError "requests" "HTTPError") _)).
  vm_compute. reflexivity.
Defined.

(** ** The order of the stages of the SEC notebook *)

Section Stages.
Import SEC.
Context `{X : Externals}.















End Stages.


Section StagesOfCells.
Import SEC.
Context `{X : Externals}.









End StagesOfCells.


(** ** The labels of the training data *)

Section Labels.
Import SEC.

Lemma eq_str_spec (v : value) (s : string) : eq_str v s = true <-> v = VStr s.
Proof.
  destruct v; cbn; try (split; [discriminate|congruence]).
  rewrite String.eqb_eq. split; congruence.
Qed.

Lemma label_of_spec (item : dict) (label : Z) :
  label_of item = Ok label ->
  exists sentiment : value,
    item !! "sentiment" = Some sentiment /\
    (label = 0%Z <-> sentiment = VStr "Negative") /\
    (label = 1%Z <-> sentiment <> VStr "Negative").
Proof.
  unfold label_of, getitem, mbind, result_mbind, result_bind.
  destruct (item !! "sentiment") as [sentiment|]; [|discriminate].
  intros [= <-]. exists sentiment. split; [reflexivity|].
  destruct (eq_str sentiment "Negative") eqn:E.
  - apply eq_str_spec in E. subst. split; split; congruence.
  - assert (sentiment <> VStr "Negative")
      by (rewrite <- eq_str_spec; congruence).
    split; split; congruence.
Qed.

Lemma comprehension_Forall2 {A B} (f : A -> result B) (l : list A)
  (bs : list B) :
  comprehension f l = Ok bs -> Forall2 (fun x b => f x = Ok b) l bs.
Proof.
  revert bs. induction l as [|x l IH]; cbn; intros bs.
  - intros [= <-]. constructor.
  - destruct (f x) as [b|] eqn:Ef; cbn; [|discriminate].
    destruct (comprehension f l) as [bs'|]; cbn; [|discriminate].
    intros [= <-]. constructor; auto.
Qed.

Lemma comprehension_total {A B} (f : A -> result B) (l : list A) :
  Forall (fun x => exists b, f x = Ok b) l ->
  exists bs, comprehension f l = Ok bs.
Proof.
  induction 1 as [|x l [b Hb] _ [bs IH]]; [exists []; reflexivity|].
  exists (b :: bs). cbn. rewrite Hb. cbn. rewrite IH. reflexivity.
Qed.

(** C9. When the dataset is built, the label of an item is 0 if and only
    if its [sentiment] is the string "Negative", and 1 for every other
    value; so every label is 0 or 1, item by item in the order of the
    training data. *)
Theorem label_is_zero_iff_Negative (training_data : list dict)
  (texts : list value) (labels : list Z) :
  training_columns training_data = Ok (texts, labels) ->
  Forall2 (fun item label =>
             exists sentiment : value,
               item !! "sentiment" = Some sentiment /\
               (label = 0%Z <-> sentiment = VStr "Negative") /\
               (label = 1%Z <-> sentiment <> VStr "Negative") /\
               (label = 0%Z \/ label = 1%Z))
    training_data labels.
Proof.
  unfold training_columns, mbind, result_mbind, result_bind.
  destruct (comprehension (fun item => getitem item "text") training_data)
    as [texts'|]; [|discriminate].
  destruct (comprehension label_of training_data) as [labels'|] eqn:El;
    [|discriminate].
  intros [= <- <-]. apply comprehension_Forall2 in El.
  eapply Forall2_impl; [exact El|]. cbv beta.
  intros item label Hl. destruct (label_of_spec item label Hl)
    as (sentiment & Hs & H0 & H1).
  exists sentiment. repeat split; try tauto.
  unfold label_of, getitem in Hl. rewrite Hs in Hl. cbn in Hl.
  destruct (eq_str sentiment "Negative"); injection Hl as <-; auto.
Qed.

(** The labels exist as soon as every item has a [text] and a
    [sentiment]. *)
Lemma training_columns_total (training_data : list dict) :
  Forall (fun item => is_Some (item !! "text") /\
                      is_Some (item !! "sentiment")) training_data ->
  exists texts labels, training_columns training_data = Ok (texts, labels).
Proof.
  intros Hall.
  destruct (comprehension_total (fun item => getitem item "text")
              training_data) as [texts Ht].
  { eapply Forall_impl; [exact Hall|]. intros item [[t Ht] _].
    exists t. unfold getitem. rewrite Ht. reflexivity. }
  destruct (comprehension_total label_of training_data) as [labels Hl].
  { eapply Forall_impl; [exact Hall|]. intros item [_ [v Hv]].
    eexists. unfold label_of, getitem. rewrite Hv. reflexivity. }
  exists texts, labels. unfold training_columns. rewrite Ht. cbn.
  rewrite Hl. reflexivity.
Qed.

End Labels.

Lemma label_is_zero_iff_Negative_witness :
  Forall2 (fun item label =>
             exists sentiment : value,
               item !! "sentiment" = Some sentiment /\
               (label = 0%Z <-> sentiment = VStr "Negative") /\
               (label = 1%Z <-> sentiment <> VStr "Negative") /\
               (label = 0%Z \/ label = 1%Z))
    SEC.demo_training_data [0%Z; 1%Z; 1%Z; 1%Z].
Proof.
  apply (label_is_zero_iff_Negative SEC.demo_training_data
           [VStr "risk"; VStr "growth"; VStr "loss"; VStr "none"]).
  vm_compute. reflexivity.
Defined.

(** ** The staging bricks *)

Section StagingBricks.
Import Staging.






End StagingBricks.



(** ** The load of the MySQL notebook *)

Section MySQLLoad.
Import MySQL.
Context `{X : Externals}.

Lemma sql_writes_app (h1 h2 : history) :
  sql_writes (h1 ++ h2) = sql_writes h1 ++ sql_writes h2.
Proof. apply omap_app. Qed.

Lemma quiet_ret {A} (a : A) : quiet (ret a).
Proof. apply emits_ret. reflexivity. Qed.

Lemma quiet_mret {A} (a : A) : quiet (mret a).
Proof. apply quiet_ret. Qed.

Lemma quiet_lift {A} (r : result A) : quiet (lift r).
Proof. apply emits_lift. reflexivity. Qed.

Lemma quiet_extcall {A} (c : call) (f : history -> result A) :
  sql_writes [(c, None)] = [] -> quiet (extcall c f).
Proof.
  intros Hc. apply emits_extcall. intros r.
  destruct c; try reflexivity; discriminate.
Qed.

Lemma quiet_bind {A B} (m : M call A) (k : A -> M call B) :
  quiet m -> (forall a, quiet (k a)) -> quiet (m ≫= k).
Proof.
  intros Hm Hk.
  apply (emits_bind m k (fun new _ => sql_writes new = [])
           (fun _ new _ => sql_writes new = [])); [exact Hm|exact Hk| |].
  - auto.
  - intros new1 a new2 r H1 H2. rewrite sql_writes_app, H1, H2. reflexivity.
Qed.

Lemma quiet_for_extend {A B} (body : A -> M call (list B)) (l : list A) :
  (forall x, quiet (body x)) -> forall acc, quiet (for_extend body acc l).
Proof.
  intros Hbody. induction l as [|x l IH]; intros acc; cbn [for_extend].
  - apply quiet_ret.
  - apply (quiet_bind (body x) (fun bs => for_extend body (acc ++ bs) l));
      auto.
Qed.

Ltac quiet_calls :=
  repeat first
    [ apply quiet_bind
    | apply quiet_mret
    | apply quiet_ret
    | apply quiet_lift
    | apply quiet_extcall; reflexivity
    | apply quiet_for_extend
    | match goal with
      | |- forall _, _ => intro
      end ].

Lemma writes_once_after {A B} (df : list Staging.row) (m : M call A)
  (k : A -> M call B) :
  quiet m -> (forall a, writes_once df (k a)) -> writes_once df (m ≫= k).
Proof.
  intros Hm Hk.
  apply (emits_bind m k (fun new _ => sql_writes new = [])
           (fun _ new r =>
              length (sql_writes new) <= 1 /\
              (outcome r = None ->
               sql_writes new = [(df, table_name, "replace")])));
    [exact Hm|exact Hk| |].
  - intros new e ->. cbn. split; [lia|discriminate].
  - intros new1 a new2 r H1 H2. rewrite sql_writes_app, H1. exact H2.
Qed.

Lemma writes_once_before {A B} (df : list Staging.row) (m : M call A)
  (k : A -> M call B) :
  emits m (fun new _ => sql_writes new = [(df, table_name, "replace")]) ->
  (forall a, quiet (k a)) -> writes_once df (m ≫= k).
Proof.
  intros Hm Hk.
  apply (emits_bind m k
           (fun new _ => sql_writes new = [(df, table_name, "replace")])
           (fun _ new _ => sql_writes new = [])); [exact Hm|exact Hk| |].
  - intros new e ->. cbn. split; [lia|discriminate].
  - intros new1 a new2 r H1 H2. rewrite sql_writes_app, H1, H2. cbn.
    split; [lia|reflexivity].
Qed.

Lemma cell_load_writes (elements_df : list Staging.row) :
  emits (cell_load elements_df)
    (fun new _ => sql_writes new = [(elements_df, table_name, "replace")]).
Proof.
  unfold cell_load, display.
  apply (emits_bind _ _
           (fun new _ => sql_writes new = [(elements_df, table_name, "replace")])
           (fun _ new _ => sql_writes new = [])).
  - apply emits_extcall. reflexivity.
  - intros written. apply emits_extcall. reflexivity.
  - auto.
  - intros new1 a new2 r H1 H2. rewrite sql_writes_app, H1, H2. reflexivity.
Qed.

Lemma cell_convert_answer (elements : list Staging.Element) :
  emits (cell_convert elements)
    (fun new r =>
       sql_writes new = [] /\
       forall df, r = Ok df ->
         exists h, convert_to_dataframe h elements = Ok df).
Proof.
  intros s.
  assert (Hrun : cell_convert elements s =
    match convert_to_dataframe (log s) elements with
    | Ok df => (Ok df, State (heap s) (next s)
                         (log s ++ [(convert_to_dataframe_ elements, None);
                                    (head_ df, None)]))
    | Raise e => (Raise e, State (heap s) (next s)
                             (log s ++ [(convert_to_dataframe_ elements,
                                         Some e)]))
    end).
  { unfold cell_convert. rewrite bind_unfold. unfold extcall at 1.
    cbn [log heap next].
    destruct (convert_to_dataframe (log s) elements) as [df|e];
      [|reflexivity].
    rewrite bind_unfold. cbn. rewrite <- app_assoc. reflexivity. }
  rewrite Hrun.
  destruct (convert_to_dataframe (log s) elements) as [df|e] eqn:E;
    eexists; (split; [reflexivity|]); (split; [reflexivity|]).
  - intros df' [= <-]. eauto.
  - discriminate.
Qed.

(** The MySQL notebook writes to the database at most once, and a run
    that does not raise has written, in one call, the dataframe that
    [convert_to_dataframe] returned for the elements. *)
Lemma notebook_writes_once :
  emits notebook (fun new r =>
    length (sql_writes new) <= 1 /\
    (outcome r = None ->
     exists (h : history) (elements : list Staging.Element)
            (df : list Staging.row),
       convert_to_dataframe h elements = Ok df /\
       sql_writes new = [(df, table_name, "replace")])).
Proof.
  unfold notebook.
  apply (emits_bind _ _ (fun new _ => sql_writes new = [])
           (fun _ new r =>
              length (sql_writes new) <= 1 /\
              (outcome r = None ->
               exists h elements df,
                 convert_to_dataframe h elements = Ok df /\
                 sql_writes new = [(df, table_name, "replace")]))).
  - unfold cell_partition, partition_body, display. quiet_calls.
  - intros elements.
    apply (emits_bind _ _
             (fun new r =>
                sql_writes new = [] /\
                forall df, r = Ok df ->
                  exists h, convert_to_dataframe h elements = Ok df)
             (fun df new r =>
                length (sql_writes new) <= 1 /\
                (outcome r = None ->
                 sql_writes new = [(df, table_name, "replace")]))).
    + apply cell_convert_answer.
    + intros elements_df. apply writes_once_after.
      * unfold cell_engine. quiet_calls.
      * intros _. apply writes_once_before; [apply cell_load_writes|].
        intros _. unfold cell_read. quiet_calls.
    + intros new e [-> _]. cbn. split; [lia|discriminate].
    + intros new1 df new2 r [H1 Hdf] [Hlen Hdone].
      rewrite sql_writes_app, H1. cbn [app]. split; [exact Hlen|].
      intros Hr. destruct (Hdf df eq_refl) as [h Hh]. eauto 6.
  - intros new e ->. cbn. split; [lia|discriminate].
  - intros new1 a new2 r H1 H2. rewrite sql_writes_app, H1. exact H2.
Qed.

End MySQLLoad.

(** ** One call for the table, one call for each document *)

(** C6 as amended. The relational table is loaded by a single [to_sql]
    call: a run of the MySQL notebook makes at most one, and a run that
    does not raise has made exactly one, with the whole dataframe that
    [convert_to_dataframe] returned.  The search index is not loaded in
    bulk: a loading loop that does not raise has called [es_client.index]
    once for each element dictionary. *)
Theorem table_in_one_call_index_in_one_per_element (XM : MySQL.Externals)
  (XE : Elastic.Externals) :
  (forall s : state MySQL.call,
     length (MySQL.sql_writes (journal MySQL.notebook s)) <= 1 /\
     (outcome (fst (MySQL.notebook s)) = None ->
      exists (h : MySQL.history) (elements : list Staging.Element)
             (df : list Staging.row),
        MySQL.convert_to_dataframe h elements = Ok df /\
        MySQL.sql_writes (journal MySQL.notebook s)
        = [(df, MySQL.table_name, "replace")])) /\
  (forall (l : list loc) (s : state Elastic.call),
     fst (Elastic.index_loop l s) = Ok tt ->
     length (Elastic.indexed_documents (journal (Elastic.index_loop l) s))
     = length l).
Proof.
  split.
  - intros s. destruct (notebook_writes_once s) as (new & Hlog & H).
    rewrite (journal_eq _ _ _ Hlog). exact H.
  - apply index_loop_one_call_per_element.
Qed.

Lemma table_in_one_call_index_in_one_per_element_witness :
  length (MySQL.sql_writes
            (journal (MySQL.notebook (X := MySQL.demo)) initial)) = 1%nat /\
  length (Elastic.indexed_documents
            (journal (Elastic.index_loop (X := Elastic.demo)
                        [1%positive; 2%positive]) Elastic.demo_state))
  = 2%nat.
Proof.
  destruct (table_in_one_call_index_in_one_per_element MySQL.demo Elastic.demo)
    as [HM HE].
  split.
  - destruct (HM initial) as [_ H].
    destruct H as (h & elements & df & _ & ->); [vm_compute|]; reflexivity.
  - apply (HE [1%positive; 2%positive] Elastic.demo_state).
    vm_compute. reflexivity.
Defined.

(** ** The model on small inputs *)

Example round4_examples :
  (round4 (1 # 3) == 3333 # 10000)%Q /\
  (round4 (-7 # 8) == -875 # 1000)%Q /\
  (round4 (12345 # 100000) == 1234 # 10000)%Q /\
  (round4 (12355 # 100000) == 1236 # 10000)%Q.
Proof. repeat split. Qed.

Example sentiment_label_examples :
  Elastic.sentiment_label (-896 # 10000) = "negative" /\
  Elastic.sentiment_label 0 = "neutral" /\
  Elastic.sentiment_label (0 # 7) = "neutral" /\
  Elastic.sentiment_label (1083 # 10000) = "positive".
Proof. repeat split. Qed.

Example load_of_two_elements :
  map (fun d : dict => (d !! "polarity", d !! "sentiment"))
    (Elastic.indexed_documents
       (journal (Elastic.index_loop (X := Elastic.demo)
                   [1%positive; 2%positive]) Elastic.demo_state))
  = [(Some (VFloat (round4 (-3 # 4))), Some (VStr "negative"));
     (Some (VFloat (round4 (1083 # 10000))), Some (VStr "positive"))].
Proof. vm_compute. reflexivity. Qed.

Example title_examples :
  title "NEGATIVE" = "Negative" /\ title "POSITIVE" = "Positive" /\
  title "hello wORLD x1y" = "Hello World X1Y".
Proof. repeat split. Qed.

Example text_elements_of_demo :
  Elastic.text_elements_of
    [Elastic.demo_bad; Elastic.demo_fine;
     {| Staging.element_id := "e3"; Staging.category := "Title";
        Staging.text := "Skip to main content"; Staging.metadata := [] |}]
  = [Elastic.demo_bad; Elastic.demo_fine].
Proof. reflexivity. Qed.

Example label_of_examples :
  SEC.training_columns SEC.demo_training_data
  = Ok ([VStr "risk"; VStr "growth"; VStr "loss"; VStr "none"],
        [0; 1; 1; 1]%Z).
Proof. vm_compute. reflexivity. Qed.

Example chunks_of_three_texts :
  Staging.chunk_by_attention_window String.length 5 [] 0 ["ab"; "cd"; "efg"]
  = Ok [["ab"; "cd"]; ["efg"]].
Proof. reflexivity. Qed.

Example failed_request_stops_the_run :
  length (journal (SEC.notebook (X := SEC.demo_with "nke" 500)) initial)
  = 89%nat.
Proof. vm_compute. reflexivity. Qed.

(** * Further properties of the notebooks *)

(** ** The query cell: when the sorts succeed, and sorting again *)

Section QuerySortMore.
Import Elastic.

Lemma insert_desc_tag (k : string) (x : dict) (l : list dict) :
  insert_desc (tag k x) (map (tag k) l) = map (tag k) (insert_by k x l).
Proof.
  induction l as [|y l IH]; cbn; [reflexivity|].
  destruct (float_lt (score k x) (score k y)); cbn; [|reflexivity].
  rewrite IH. reflexivity.
Qed.

Lemma sort_desc_tag (k : string) (l : list dict) :
  sort_desc (map (tag k) l) = map (tag k) (sort_by k l).
Proof.
  induction l as [|x l IH]; cbn; [reflexivity|].
  unfold sort_desc in IH. rewrite IH. apply insert_desc_tag.
Qed.

Lemma sorted_reverse_sort_by (k : string) (l : list dict) :
  Forall (fun hit => number_item hit k = Ok (score k hit)) l ->
  sorted_reverse k l = Ok (sort_by k l).
Proof.
  intros H. rewrite (sorted_reverse_tag k l H), sort_desc_tag, map_map.
  cbn. rewrite map_id. reflexivity.
Qed.

Lemma insert_by_perm (k : string) (x : dict) (l : list dict) :
  Permutation (insert_by k x l) (x :: l).
Proof.
  induction l as [|y l IH]; cbn; [reflexivity|].
  destruct (float_lt (score k x) (score k y)); [|reflexivity].
  rewrite IH. apply perm_swap.
Qed.

Lemma sort_by_perm (k : string) (l : list dict) : Permutation (sort_by k l) l.
Proof.
  induction l as [|x l IH]; cbn; [reflexivity|].
  rewrite insert_by_perm. constructor. exact IH.
Qed.

Lemma decorate_Ok (k : string) (l : list dict) (kl : list (Q * dict)) :
  decorate k l = Ok kl ->
  Forall (fun hit => number_item hit k = Ok (score k hit)) l.
Proof.
  revert kl. induction l as [|hit l IH]; intros kl; cbn; [constructor|].
  unfold mbind, result_mbind, result_bind.
  destruct (number_item hit k) as [q|] eqn:Eq; [|discriminate].
  destruct (decorate k l) as [kl'|]; [|discriminate].
  intros _. constructor; [|eapply IH; reflexivity].
  unfold score. rewrite Eq. reflexivity.
Qed.

Lemma sorted_reverse_Ok (k : string) (l hits : list dict) :
  sorted_reverse k l = Ok hits ->
  Forall (fun hit => number_item hit k = Ok (score k hit)) l.
Proof.
  unfold sorted_reverse, mbind, result_mbind, result_bind.
  destruct (decorate k l) as [kl|] eqn:E; [|discriminate].
  intros _. eapply decorate_Ok, E.
Qed.

Lemma numeric_of_items (l : list dict) :
  Forall (fun hit => number_item hit "polarity"
                     = Ok (score "polarity" hit)) l ->
  Forall (fun hit => number_item hit "subjectivity"
                     = Ok (score "subjectivity" hit)) l ->
  forallb numeric l = true.
Proof.
  intros Hp Hj. apply forallb_forall. intros hit Hin.
  rewrite Forall_forall in Hp, Hj. apply list_elem_of_In in Hin.
  unfold numeric. rewrite (Hp hit Hin), (Hj hit Hin). reflexivity.
Qed.

Lemma items_of_numeric (l : list dict) :
  forallb numeric l = true ->
  Forall (fun hit => number_item hit "polarity"
                     = Ok (score "polarity" hit)) l /\
  Forall (fun hit => number_item hit "subjectivity"
                     = Ok (score "subjectivity" hit)) l.
Proof.
  intros H. rewrite forallb_forall in H.
  split; apply Forall_forall; intros hit Hin;
    apply numeric_items, H, list_elem_of_In, Hin.
Qed.

(** What the two sorts return, on the hits themselves. *)
Lemma sorted_elements_sort_by (response : list dict) :
  forallb numeric response = true ->
  sorted_elements response
  = Ok (sort_by "subjectivity" (sort_by "polarity" response)).
Proof.
  intros Hnum. destruct (items_of_numeric response Hnum) as [Hp Hj].
  unfold sorted_elements. rewrite (sorted_reverse_sort_by _ _ Hp). cbn.
  apply sorted_reverse_sort_by.
  rewrite (sort_by_perm "polarity" response). exact Hj.
Qed.

Lemma sorted_elements_Ok_numeric (response hits : list dict) :
  sorted_elements response = Ok hits -> forallb numeric response = true.
Proof.
  intros H. unfold sorted_elements in H.
  destruct (sorted_reverse "polarity" response) as [by_polarity|] eqn:E1;
    [|discriminate].
  cbn in H. pose proof (sorted_reverse_Ok _ _ _ E1) as Hp.
  pose proof (sorted_reverse_Ok _ _ _ H) as Hj.
  rewrite (sorted_reverse_sort_by _ _ Hp) in E1. injection E1 as <-.
  rewrite (sort_by_perm "polarity" response) in Hj.
  apply numeric_of_items; assumption.
Qed.


Lemma insert_by_head (k : string) (x : dict) (l : list dict) :
  Forall (fun z => (score k z <= score k x)%Q) l -> insert_by k x l = x :: l.
Proof.
  destruct l as [|y l]; cbn; [reflexivity|]. intros H.
  apply Forall_inv in H.
  destruct (float_lt (score k x) (score k y)) eqn:E; [|reflexivity].
  apply float_lt_spec in E. exfalso. revert E. apply Qle_not_lt, H.
Qed.

Lemma subjectivity_then_polarity_le (x z : dict) :
  subjectivity_then_polarity x z ->
  (score "subjectivity" z <= score "subjectivity" x)%Q.
Proof.
  intros [Hlt|[Heq _]]; [apply Qlt_le_weak, Hlt|].
  rewrite Heq. apply Qle_refl.
Qed.

(** A hit that may stand before all of [l] comes out first when it is
    inserted by polarity and the list is then sorted by subjectivity. *)
Lemma sort_by_insert_by_first (x : dict) (l : list dict) :
  Forall (subjectivity_then_polarity x) l ->
  sort_by "subjectivity" (insert_by "polarity" x l)
  = x :: sort_by "subjectivity" l.
Proof.
  induction l as [|y l IH]; intros Hx; [reflexivity|].
  pose proof (Forall_inv Hx) as Hxy.
  pose proof (Forall_inv_tail Hx) as Hxl.
  cbn [insert_by].
  destruct (float_lt (score "polarity" x) (score "polarity" y)) eqn:E.
  - apply float_lt_spec in E.
    change (sort_by "subjectivity" (y :: insert_by "polarity" x l))
      with (insert_by "subjectivity" y
              (sort_by "subjectivity" (insert_by "polarity" x l))).
    rewrite (IH Hxl). cbn [insert_by].
    assert (Hlt : (score "subjectivity" y < score "subjectivity" x)%Q).
    { destruct Hxy as [Hlt|[_ Hle]]; [exact Hlt|].
      exfalso. revert E. apply Qle_not_lt, Hle. }
    apply float_lt_spec in Hlt. rewrite Hlt. reflexivity.
  - change (sort_by "subjectivity" (x :: y :: l))
      with (insert_by "subjectivity" x (sort_by "subjectivity" (y :: l))).
    apply insert_by_head. rewrite (sort_by_perm "subjectivity" (y :: l)).
    eapply Forall_impl; [exact Hx|]. apply subjectivity_then_polarity_le.
Qed.

Lemma sort_by_twice_sorted (l : list dict) :
  StronglySorted subjectivity_then_polarity l ->
  sort_by "subjectivity" (sort_by "polarity" l) = l.
Proof.
  induction 1 as [|x l Hs IH Hx]; [reflexivity|].
  change (sort_by "polarity" (x :: l))
    with (insert_by "polarity" x (sort_by "polarity" l)).
  rewrite sort_by_insert_by_first, IH; [reflexivity|].
  rewrite (sort_by_perm "polarity" l). exact Hx.
Qed.

Lemma sort_by_twice_is_sorted (response : list dict) :
  StronglySorted subjectivity_then_polarity
    (sort_by "subjectivity" (sort_by "polarity" response)).
Proof.
  pose proof (sorted_reverse_stable "polarity" (fun _ _ => True) response
                (StronglySorted_trivial response)) as H1.
  pose proof (sorted_reverse_stable "subjectivity" _ _ H1) as H2.
  rewrite !sort_desc_tag, !map_map in H2. cbn in H2. rewrite !map_id in H2.
  eapply StronglySorted_impl with (P := fun _ => True);
    [|apply Forall_forall; auto|exact H2].
  intros a b _ _ [Hlt|[Heq Hpol]]; [left; exact Hlt|right].
  split; [exact Heq|].
  destruct Hpol as [Hlt|[Heq' _]].
  - apply Qlt_le_weak, Hlt.
  - rewrite Heq'. apply Qle_refl.
Qed.

(** X2. Sorting what the query cell returned changes nothing: the two
    sorts applied to their own result return it as it is, hits that are
    equal in both scores included, which keep their places. *)
Theorem sorted_elements_idempotent (response hits : list dict) :
  sorted_elements response = Ok hits ->
  sorted_elements hits = Ok hits.
Proof.
  intros H.
  assert (Hnum : forallb numeric response = true)
    by (eapply sorted_elements_Ok_numeric, H).
  rewrite (sorted_elements_sort_by _ Hnum) in H. injection H as <-.
  rewrite sorted_elements_sort_by.
  - rewrite sort_by_twice_sorted; [reflexivity|]. apply sort_by_twice_is_sorted.
  - eapply numeric_perm; [|exact Hnum].
    rewrite !sort_by_perm. reflexivity.
Qed.

End QuerySortMore.

Lemma sorted_elements_idempotent_witness :
  Elastic.sorted_elements
    [Elastic.hit (-3 # 4) 1 "d"; Elastic.hit (1083 # 10000) (575 # 1000) "c";
     Elastic.hit (1 # 2) (4208 # 10000) "f";
     Elastic.hit (-896 # 10000) (4208 # 10000) "b";
     Elastic.hit (-896 # 10000) (4208 # 10000) "e";
     Elastic.hit (1071 # 10000) (3421 # 10000) "a"]
  = Ok [Elastic.hit (-3 # 4) 1 "d"; Elastic.hit (1083 # 10000) (575 # 1000) "c";
        Elastic.hit (1 # 2) (4208 # 10000) "f";
        Elastic.hit (-896 # 10000) (4208 # 10000) "b";
        Elastic.hit (-896 # 10000) (4208 # 10000) "e";
        Elastic.hit (1071 # 10000) (3421 # 10000) "a"].
Proof.
  apply (sorted_elements_idempotent Elastic.demo_hits).
  vm_compute. reflexivity.
Defined.

(** ** The printing loop stops after five hits *)

Section PrintTop.
Import Elastic.
Context `{X : Externals}.

Lemma state_eta (s : state call) : State (heap s) (next s) (log s) = s.
Proof. destruct s. reflexivity. Qed.

Lemma print_top_run (hits : list dict) :
  forall (ix k : nat) (s : state call),
    ix + k = 5 ->
    forallb printable (take (S k) hits) = true ->
    print_top ix hits s
    = (Ok tt,
       State (heap s) (next s)
         (log s ++ map (fun ih => (printed (fst ih) (snd ih), None))
                       (enumerate ix (take (S k) hits)))).
Proof.
  induction hits as [|hit rest IH]; intros ix k s Hix Hall.
  - cbn. rewrite app_nil_r, state_eta. reflexivity.
  - cbn [take forallb] in Hall. apply andb_prop in Hall.
    destruct Hall as [Hhit Hrest].
    unfold printable in Hhit.
    destruct (hit !! "text") as [t|] eqn:Et; [|discriminate].
    destruct (hit !! "sentiment") as [se|] eqn:Es; [|discriminate].
    destruct (hit !! "polarity") as [p|] eqn:Ep; [|discriminate].
    destruct (hit !! "subjectivity") as [j|] eqn:Ej; [|discriminate].
    cbn [print_top]. unfold attribute. rewrite Et, Es, Ep, Ej.
    rewrite !bind_unfold. unfold lift. rewrite !bind_unfold.
    unfold print, extcall. cbn [log heap next outcome].
    cbn [take enumerate map fst snd]. unfold printed at 1.
    rewrite Et, Es, Ep, Ej. cbn [default].
    destruct (ix =? 5)%nat eqn:E5.
    + apply Nat.eqb_eq in E5. assert (k = 0) by lia. subst k.
      cbn. rewrite take_0. reflexivity.
    + apply Nat.eqb_neq in E5. destruct k as [|k]; [lia|].
      rewrite (IH (S ix) k) by (assumption || lia).
      cbn [heap next log]. rewrite <- app_assoc. reflexivity.
Qed.

(** X3. The printing loop prints the hits in order, numbered from 1, and
    stops after the fifth: when the first five hits (or all of them, when
    there are fewer) have the four attributes it reads, it prints exactly
    those hits and does not raise, whatever the later hits are. *)
Theorem print_loop_first_five (hits : list dict) (s : state call) :
  forallb printable (take 5 hits) = true ->
  fst (print_top 1 hits s) = Ok tt /\
  journal (print_top 1 hits) s
  = map (fun ih => (printed (fst ih) (snd ih), None))
      (enumerate 1 (take 5 hits)).
Proof.
  intros Hall. unfold journal.
  rewrite (print_top_run hits 1 4) by (reflexivity || assumption).
  cbn [fst snd log]. split; [reflexivity|].
  rewrite drop_app_length. reflexivity.
Qed.

End PrintTop.

Lemma print_loop_first_five_witness :
  length (journal (Elastic.print_top 1 Elastic.demo_stored_hits)
            (initial (C := Elastic.call)))
  = 5%nat.
Proof.
  rewrite (proj2 (print_loop_first_five Elastic.demo_stored_hits initial
                    eq_refl)).
  reflexivity.
Defined.

(** ** Rounding before the sign test *)

Lemma round_half_even_near (x : Q) :
  (inject_Z (round_half_even x) - (1 # 2) <= x)%Q /\
  (x <= inject_Z (round_half_even x) + (1 # 2))%Q.
Proof.
  unfold round_half_even.
  pose proof (Qfloor_le x) as Hlo. pose proof (Qlt_floor x) as Hhi.
  rewrite inject_Z_plus in Hhi. change (inject_Z 1) with 1%Q in Hhi.
  destruct (Qcompare_spec ((x - inject_Z (Qfloor x)) * 2) 1) as [H|H|H].
  - destruct (Z.even (Qfloor x)); rewrite ?inject_Z_plus;
      change (inject_Z 1) with 1%Q; split; lra.
  - split; lra.
  - rewrite inject_Z_plus. change (inject_Z 1) with 1%Q. split; lra.
Qed.

Lemma round_half_even_zero (x : Q) :
  (-(1 # 2) <= x)%Q -> (x <= 1 # 2)%Q -> round_half_even x = 0%Z.
Proof.
  intros Hlo Hhi. unfold round_half_even.
  pose proof (Qfloor_le x) as Hf. pose proof (Qlt_floor x) as Hf'.
  assert (Hrange : (-1 <= Qfloor x <= 0)%Z).
  { split.
    - change (-1)%Z with (Qfloor (-(1 # 2))). apply Qfloor_resp_le, Hlo.
    - change 0%Z with (Qfloor (1 # 2)). apply Qfloor_resp_le, Hhi. }
  assert (Hcase : Qfloor x = (-1)%Z \/ Qfloor x = 0%Z) by lia.
  destruct Hcase as [E|E]; rewrite E in *.
  - change (inject_Z (-1)) with (-1)%Q in *.
    destruct (Qcompare_spec ((x - -1) * 2) 1) as [H|H|H];
      [reflexivity|exfalso; lra|reflexivity].
  - change (inject_Z 0) with 0%Q in *.
    destruct (Qcompare_spec ((x - 0) * 2) 1) as [H|H|H];
      [reflexivity|reflexivity|exfalso; lra].
Qed.

Lemma round4_near (x : Q) :
  (round4 x - (1 # 20000) <= x)%Q /\ (x <= round4 x + (1 # 20000))%Q.
Proof.
  unfold round4. destruct (round_half_even_near (x * 10000)) as [Hlo Hhi].
  set (n := inject_Z (round_half_even (x * 10000))) in *.
  unfold Qdiv. change (/ 10000)%Q with (1 # 10000)%Q. split; lra.
Qed.

Lemma round4_sign (x : Q) :
  ((x < -(1 # 20000))%Q -> (round4 x < 0)%Q) /\
  ((-(1 # 20000) <= x)%Q -> (x <= 1 # 20000)%Q -> (round4 x == 0)%Q) /\
  ((1 # 20000 < x)%Q -> (0 < round4 x)%Q).
Proof.
  split; [|split].
  - intros H. destruct (round_half_even_near (x * 10000)) as [Hlo _].
    unfold round4.
    set (n := round_half_even (x * 10000)) in *.
    assert (Hn : (n <= -1)%Z).
    { assert (H0 : (inject_Z n < 0)%Q) by lra.
      change 0%Q with (inject_Z 0) in H0. rewrite <- Zlt_Qlt in H0. lia. }
    rewrite Zle_Qle in Hn. change (inject_Z (-1)) with (-1)%Q in Hn.
    unfold Qdiv. change (/ 10000)%Q with (1 # 10000)%Q. lra.
  - intros Hlo Hhi. unfold round4.
    rewrite round_half_even_zero by lra. reflexivity.
  - intros H. destruct (round_half_even_near (x * 10000)) as [_ Hhi].
    unfold round4.
    set (n := round_half_even (x * 10000)) in *.
    assert (Hn : (1 <= n)%Z).
    { assert (H0 : (0 < inject_Z n)%Q) by lra.
      change 0%Q with (inject_Z 0) in H0. rewrite <- Zlt_Qlt in H0. lia. }
    rewrite Zle_Qle in Hn. change (inject_Z 1) with 1%Q in Hn.
    unfold Qdiv. change (/ 10000)%Q with (1 # 10000)%Q. lra.
Qed.

Section RoundedLoad.
Import Elastic.
Context `{X : Externals}.

(** Every document of the loading loop is an element dictionary with the
    three fields computed from what TextBlob answered for its text. *)
Lemma index_loop_annotated (l : list loc) :
  forall s : state call, exists new : history,
    log (snd (index_loop l s)) = log s ++ new /\
    Forall (fun document =>
              exists (h : history) (t : value) (scores : Q * Q) (d : dict),
                d !! "text" = Some t /\ TextBlob h t = Ok scores /\
                document = annotated scores d)
      (indexed_documents new).
Proof.
  induction l as [|r l IH]; intros s.
  - exists []. cbn. rewrite app_nil_r. auto.
  - unfold index_loop. cbn [for_each]. fold (index_loop l).
    change (bind (index_body r) (fun _ => index_loop l) s)
      with ((index_body r ≫= fun _ => index_loop l) s).
    rewrite bind_unfold, index_body_run.
    destruct ((heap s !!! r) !! "text") as [t|] eqn:Et.
    2:{ exists []. cbn. rewrite app_nil_r. auto. }
    cbv zeta.
    destruct (TextBlob (log s) t) as [scores|e] eqn:Eb.
    2:{ eexists. cbn [snd log]. split; [reflexivity|]. cbn. constructor. }
    cbn [outcome].
    set (document := annotated scores (heap s !!! r)).
    assert (Hdoc : exists h t' scores' d,
               d !! "text" = Some t' /\ TextBlob h t' = Ok scores' /\
               document = annotated scores' d) by eauto 8.
    destruct (es_client_index _ index_name document) as [[]|e] eqn:Ei.
    + match goal with |- context [index_loop l ?s1] =>
        destruct (IH s1) as (new & Hlog & Hall)
      end.
      exists ([(TextBlob_ t, None); (index_ index_name document, None)] ++ new).
      split.
      * rewrite Hlog. cbn [log outcome]. rewrite <- !app_assoc. reflexivity.
      * cbn. constructor; assumption.
    + eexists. cbn [snd log]. rewrite <- app_assoc. split; [reflexivity|].
      cbn. constructor; [assumption|constructor].
Qed.

Lemma annotated_lookups (scores : Q * Q) (d : dict) (t : value) :
  d !! "text" = Some t ->
  annotated scores d !! "text" = Some t /\
  annotated scores d !! "polarity" = Some (VFloat (round4 (fst scores))) /\
  annotated scores d !! "subjectivity" = Some (VFloat (round4 (snd scores))) /\
  annotated scores d !! "sentiment"
  = Some (VStr (sentiment_label (round4 (fst scores)))).
Proof.
  intros Ht. unfold annotated. repeat split.
  - rewrite lookup_insert_ne, lookup_insert_ne, lookup_insert_ne by discriminate.
    exact Ht.
  - rewrite lookup_insert_ne, lookup_insert_ne, lookup_insert_eq by discriminate.
    reflexivity.
  - rewrite lookup_insert_ne, lookup_insert_eq by discriminate. reflexivity.
  - apply lookup_insert_eq.
Qed.

(** X4. Because the polarity is rounded before its sign is tested, the
    loading loop stores "neutral" for every text whose TextBlob polarity is
    within 0.00005 of zero, and not only for polarity zero; it stores
    "negative" below that band and "positive" above it. *)
Theorem load_sentiment_has_neutral_band (l : list loc) (s : state call) :
  Forall sentiment_by_band (indexed_documents (journal (index_loop l) s)).
Proof.
  destruct (index_loop_annotated l s) as (new & Hlog & Hall).
  rewrite (journal_eq _ _ _ Hlog).
  eapply Forall_impl; [exact Hall|]. cbv beta.
  intros document (h & t & scores & d & Ht & Hb & ->).
  destruct (annotated_lookups scores d t Ht) as (Et & _ & _ & Es).
  destruct (round4_sign (fst scores)) as (Hneg & Hzero & Hpos).
  destruct (sentiment_label_sign (round4 (fst scores)))
    as (Sneg & Szero & Spos & _).
  exists h, t, scores. split; [exact Et|]. split; [exact Hb|].
  rewrite Es. repeat split.
  - intros H. do 2 f_equal. apply Sneg, Hneg, H.
  - intros H1 H2. do 2 f_equal. apply Szero, Hzero; assumption.
  - intros H. do 2 f_equal. apply Spos, Hpos, H.
Qed.

(** X5. The polarity and the subjectivity that the loading loop stores
    are the scores TextBlob answered for the text of the document, each to
    the nearest ten-thousandth: a whole number of ten-thousandths, at most
    0.00005 away from the score. *)
Theorem load_scores_to_four_places (l : list loc) (s : state call) :
  Forall scores_to_four_places
    (indexed_documents (journal (index_loop l) s)).
Proof.
  destruct (index_loop_annotated l s) as (new & Hlog & Hall).
  rewrite (journal_eq _ _ _ Hlog).
  eapply Forall_impl; [exact Hall|]. cbv beta.
  intros document (h & t & scores & d & Ht & Hb & ->).
  destruct (annotated_lookups scores d t Ht) as (Et & Ep & Ej & _).
  exists h, t, scores, (round4 (fst scores)), (round4 (snd scores)).
  repeat split; try assumption; try apply round4_near.
  all: eexists; reflexivity.
Qed.

End RoundedLoad.

Example neutral_band_example :
  Elastic.sentiment_label (round4 (4 # 100000)) = "neutral" /\
  Elastic.sentiment_label (round4 (-5 # 100000)) = "neutral" /\
  Elastic.sentiment_label (round4 (6 # 100000)) = "positive".
Proof. repeat split. Qed.

(** ** The cleaning loop works in place *)

Section CleanInPlace.
Import Elastic.
Context `{X : Externals}.

Lemma clean_loop_texts (l : list loc) :
  forall (acc : list loc) (s : state call), exists new : history,
    log (snd (for_append clean_body acc l s)) = log s ++ new /\
    TextBlob_arguments new = [] /\
    (forall r, text_is_str (heap s) r ->
       text_is_str (heap (snd (for_append clean_body acc l s))) r) /\
    (forall cleaned, fst (for_append clean_body acc l s) = Ok cleaned ->
       forall r, r ∈ l ->
         text_is_str (heap (snd (for_append clean_body acc l s))) r).
Proof.
  induction l as [|r0 l IH]; intros acc s.
  - exists []. cbn. rewrite app_nil_r. repeat split; auto.
    intros _ _ r Hr. inversion Hr.
  - cbn [for_append].
    change (bind (clean_body r0)
              (fun b => for_append clean_body (acc ++ [b]) l) s)
      with ((clean_body r0 ≫=
               fun b => for_append clean_body (acc ++ [b]) l) s).
    rewrite bind_unfold, clean_body_run.
    destruct ((heap s !!! r0) !! "text") as [t|] eqn:Et.
    2:{ exists []. cbn. rewrite app_nil_r. repeat split; auto. discriminate. }
    cbv zeta.
    destruct (clean_extra_whitespace (log s) t) as [cleaned|e0] eqn:Ec.
    2:{ eexists. cbn [snd fst log heap outcome].
        split; [reflexivity|]. repeat split; auto. discriminate. }
    cbn [outcome].
    match goal with |- context [for_append clean_body _ l ?s1] =>
      destruct (IH (acc ++ [r0]) s1) as (new & Hlog & Hnone & Hkeep & Hall);
      set (s1' := s1) in *
    end.
    assert (Hstep : forall r, text_is_str (heap s) r \/ r = r0 ->
                              text_is_str (heap s1') r).
    { intros r Hr. unfold s1', text_is_str. cbn [heap].
      destruct (decide (r0 = r)) as [<-|Hne].
      - rewrite lookup_total_insert_eq, lookup_insert_eq. eauto.
      - rewrite lookup_total_insert_ne by assumption.
        destruct Hr as [Hr| ->]; [exact Hr|congruence]. }
    exists ([(clean_extra_whitespace_ t, None)] ++ new).
    split; [rewrite Hlog; unfold s1'; cbn [log]; rewrite <- !app_assoc;
            reflexivity|].
    split; [exact Hnone|]. split.
    + intros r Hr. apply Hkeep, Hstep. auto.
    + intros res Hok r Hr. apply elem_of_cons in Hr.
      destruct Hr as [->|Hr]; [apply Hkeep, Hstep; auto|].
      eapply Hall; eauto.
Qed.

(** X6. The cleaning loop works in place.  The list it builds holds the
    very dictionaries of the list it was given, in the same order, so the
    given list is cleaned too; and when it has not raised, each of them has
    a string as its [text]. *)
Theorem clean_loop_in_place (l cleaned : list loc) (s : state call) :
  fst (clean_loop l s) = Ok cleaned ->
  cleaned = l /\
  forall r, r ∈ l -> text_is_str (heap (snd (clean_loop l s))) r.
Proof.
  intros Hok. unfold clean_loop in *.
  destruct (clean_loop_spec l [] s) as (_ & _ & _ & Hres & _).
  destruct (clean_loop_texts l [] s) as (_ & _ & _ & _ & Hall).
  split; [apply (Hres _ Hok)|]. intros r Hr. eapply Hall; eauto.
Qed.

Lemma TextBlob_arguments_app (h1 h2 : history) :
  TextBlob_arguments (h1 ++ h2) = TextBlob_arguments h1 ++ TextBlob_arguments h2.
Proof. apply omap_app. Qed.

Lemma index_loop_arguments (l : list loc) :
  forall s : state call,
    (forall r, r ∈ l -> text_is_str (heap s) r) ->
    exists new : history,
      log (snd (index_loop l s)) = log s ++ new /\
      Forall (fun t => exists c : string, t = VStr c) (TextBlob_arguments new).
Proof.
  induction l as [|r0 l IH]; intros s Hstr.
  - exists []. cbn. rewrite app_nil_r. auto.
  - unfold index_loop. cbn [for_each]. fold (index_loop l).
    change (bind (index_body r0) (fun _ => index_loop l) s)
      with ((index_body r0 ≫= fun _ => index_loop l) s).
    rewrite bind_unfold, index_body_run.
    destruct (Hstr r0) as [c Hc]; [left|]. rewrite Hc. cbv zeta.
    destruct (TextBlob (log s) (VStr c)) as [scores|e] eqn:Eb.
    2:{ eexists. cbn [snd log]. split; [reflexivity|]. cbn.
        constructor; eauto. }
    cbn [outcome].
    set (document := annotated scores (heap s !!! r0)).
    destruct (es_client_index _ index_name document) as [[]|e] eqn:Ei.
    + match goal with |- context [index_loop l ?s1] =>
        destruct (IH s1) as (new & Hlog & Hall)
      end.
      { intros r Hr. unfold text_is_str. cbn [heap].
        destruct (Hstr r) as [c' Hc']; [right; exact Hr|].
        exists c'. destruct (decide (r0 = r)) as [<-|Hne].
        - rewrite lookup_total_insert_eq. unfold document.
          rewrite annotated_other by discriminate. exact Hc'.
        - rewrite lookup_total_insert_ne by assumption. exact Hc'. }
      exists ([(TextBlob_ (VStr c), None);
               (index_ index_name document, None)] ++ new).
      split.
      * rewrite Hlog. cbn [log outcome]. rewrite <- !app_assoc. reflexivity.
      * rewrite TextBlob_arguments_app. apply Forall_app. split; [|exact Hall].
        cbn. constructor; eauto.
    + eexists. cbn [snd log]. rewrite <- app_assoc. split; [reflexivity|].
      cbn. constructor; eauto.
Qed.

(** X7. After the cleaning loop, the loading loop gives TextBlob nothing
    but strings: whatever the element dictionaries held under [text]
    before, every text that TextBlob receives in a run of the two loops is
    a string that the cleaning has written. *)
Theorem TextBlob_receives_strings (l : list loc) (s : state call) :
  Forall (fun t => exists c : string, t = VStr c)
    (TextBlob_arguments (journal (clean_then_load l) s)).
Proof.
  unfold journal, clean_then_load, clean_loop. rewrite bind_unfold.
  destruct (clean_loop_spec l [] s) as (new0 & Hlog0 & _ & Hres & _).
  destruct (clean_loop_texts l [] s) as (new1 & Hlog1 & Hnone & _ & Hall).
  destruct (for_append clean_body [] l s) as [[cleaned|e] s1] eqn:Hrun;
    cbn [fst snd] in *.
  - rewrite (Hres cleaned eq_refl). cbn [app].
    destruct (index_loop_arguments l s1) as (new2 & Hlog2 & Hargs).
    { intros r Hr. eapply Hall; eauto. }
    rewrite Hlog2, Hlog1, <- app_assoc, drop_app_length.
    rewrite TextBlob_arguments_app, Hnone. exact Hargs.
  - rewrite Hlog1, drop_app_length, Hnone. constructor.
Qed.

End CleanInPlace.

Lemma clean_loop_in_place_witness :
  Elastic.text_is_str
    (heap (snd (Elastic.clean_loop (X := Elastic.demo)
                  [1%positive; 2%positive] Elastic.demo_state)))
    2%positive.
Proof.
  apply (proj2 (clean_loop_in_place (X := Elastic.demo)
                  [1%positive; 2%positive] [1%positive; 2%positive]
                  Elastic.demo_state eq_refl)).
  apply elem_of_cons; right; apply elem_of_cons; left; reflexivity.
Defined.

(** ** What the notebooks need before they load *)

Section Sequencing.
Context {C : Type}.

(** Sequencing, with what the first part has established at hand for the
    second. *)
Lemma emits_seq {A B} (m : M C A) (k : A -> M C B)
  (P1 : list (C * option exn) -> result A -> Prop)
  (P : list (C * option exn) -> result B -> Prop) :
  emits m P1 ->
  (forall new e, P1 new (Raise e) -> P new (Raise e)) ->
  (forall new1 a, P1 new1 (Ok a) ->
     emits (k a) (fun new2 r => P (new1 ++ new2) r)) ->
  emits (m ≫= k) P.
Proof.
  intros Hm Hraise Hk s. rewrite bind_unfold.
  destruct (Hm s) as (new1 & Hlog1 & H1).
  destruct (m s) as [[a|e] s1]; cbn [fst snd] in *.
  - destruct (Hk new1 a H1 s1) as (new2 & Hlog2 & H2).
    exists (new1 ++ new2). rewrite Hlog2, Hlog1, app_assoc. auto.
  - exists new1. auto.
Qed.



End Sequencing.

Section ElasticNeeds.
Import Elastic.
Context `{X : Externals}.







End ElasticNeeds.


Section ElasticNeedsFive.
Import Elastic.
Context `{X : Externals}.



End ElasticNeedsFive.


Example two_elements_are_not_enough :
  fst (Elastic.notebook (X := Elastic.demo) initial) = Raise IndexError /\
  Elastic.indexed_documents
    (journal (Elastic.notebook (X := Elastic.demo)) initial) = [].
Proof. split; vm_compute; reflexivity. Qed.

Ltac quiet_calls :=
  repeat first
    [ apply quiet_bind
    | apply quiet_mret
    | apply quiet_ret
    | apply quiet_lift
    | apply quiet_extcall; reflexivity
    | apply quiet_for_extend
    | match goal with
      | |- forall _, _ => intro
      end ].

Section MySQLNeeds.
Import MySQL.
Context `{X : Externals}.

Lemma cell_partition_not_empty :
  emits cell_partition
    (fun new r => sql_writes new = [] /\
                  forall elements, r = Ok elements -> elements <> []).
Proof.
  unfold cell_partition.
  eapply emits_seq.
  { assert (H : quiet (for_extend partition_body [] documents_to_process))
      by (unfold partition_body; quiet_calls).
    exact H. }
  { intros new e ->. split; [reflexivity|discriminate]. }
  intros new1 elements H1.
  eapply emits_seq.
  { apply emits_lift with (P := fun new r =>
      new = [] /\ (outcome r = None -> elements <> [])).
    split; [reflexivity|]. unfold list_item.
    destruct elements; [discriminate|]. intros _. discriminate. }
  { intros new e [-> _]. rewrite app_nil_r.
    split; [exact H1|discriminate]. }
  intros new2 first [-> Hne]. specialize (Hne eq_refl).
  apply emits_weaken with (P := fun new r =>
    sql_writes new = [] /\ r = Ok elements).
  - intros s. exists [(display_ (VStr (Staging.text first)), None);
                      (display_ (VDict (Staging.metadata first)), None)].
    unfold display, extcall.
    repeat (rewrite bind_unfold; cbn [log heap next outcome fst snd]).
    unfold mret, M_ret, ret. cbn [log fst snd]. rewrite <- app_assoc. auto.
  - cbv beta. intros new3 r [H3 ->]. rewrite !sql_writes_app, H1, H3.
    split; [reflexivity|]. intros els [= <-]. exact Hne.
Qed.

Lemma load_then_read (df : list Staging.row) :
  emits (cell_engine ≫= fun _ => cell_load df ≫= fun _ => cell_read)
    (fun new _ => sql_writes new = [] \/
                  sql_writes new = [(df, table_name, "replace")]).
Proof.
  eapply emits_seq.
  { assert (H : quiet cell_engine) by (unfold cell_engine; quiet_calls).
    exact H. }
  { intros new e ->. left. reflexivity. }
  intros new1 u1 H1. cbv beta in H1.
  eapply emits_seq; [apply cell_load_writes| |].
  { intros new e H2. right. rewrite sql_writes_app, H1, H2. reflexivity. }
  intros new2 u2 H2. cbv beta in H2.
  eapply emits_weaken.
  { assert (H : quiet cell_read) by (unfold cell_read; quiet_calls).
    exact H. }
  cbv beta. intros new3 r H3. right.
  rewrite !sql_writes_app, H1, H2, H3. reflexivity.
Qed.

(** X9. The notebook reaches the database only with elements: in every run
    in which [to_sql] is called, it is called once, with the dataframe
    that [convert_to_dataframe] returned for a list of elements that is
    not empty.  When the three documents yield no element at all,
    [elements[0]] raises before anything is converted or written. *)
Theorem sql_written_from_elements (s : state call) :
  written_from_elements (journal notebook s).
Proof.
  assert (H : emits notebook (fun new _ => written_from_elements new)).
  { unfold notebook.
    eapply emits_seq; [apply cell_partition_not_empty| |].
    { intros new e [H1 _]. left. exact H1. }
    intros new1 elements [H1 Hne]. specialize (Hne elements eq_refl).
    eapply emits_seq; [apply cell_convert_answer| |].
    { intros new e [H2 _]. left. rewrite sql_writes_app, H1, H2. reflexivity. }
    intros new2 df [H2 Hdf]. destruct (Hdf df eq_refl) as [h Hh].
    eapply emits_weaken; [apply (load_then_read df)|].
    cbv beta. intros new3 r [H3|H3]; [left|right].
    - rewrite !sql_writes_app, H1, H2, H3. reflexivity.
    - exists h, elements, df. rewrite !sql_writes_app, H1, H2, H3. auto. }
  destruct (H s) as (new & Hlog & Hnew).
  rewrite (journal_eq _ _ _ Hlog). exact Hnew.
Qed.

End MySQLNeeds.

(** ** The loops of the SEC notebook *)

Section Inversion.
Context {C : Type}.

Lemma bind_Ok_inv {A B} (m : M C A) (k : A -> M C B) (s : state C) (b : B) :
  fst ((m ≫= k) s) = Ok b ->
  exists (a : A) (s1 : state C),
    m s = (Ok a, s1) /\ (m ≫= k) s = k a s1 /\ fst (k a s1) = Ok b.
Proof.
  rewrite bind_unfold. destruct (m s) as [[a|e] s1]; [|discriminate].
  intros H. exists a, s1. auto.
Qed.

Lemma extcall_Ok_inv {A} (c : C) (f : list (C * option exn) -> result A)
  (s s1 : state C) (a : A) :
  extcall c f s = (Ok a, s1) ->
  f (log s) = Ok a /\ s1 = State (heap s) (next s) (log s ++ [(c, None)]).
Proof.
  unfold extcall. intros H. injection H as Hr Hs.
  rewrite Hr in Hs. cbn in Hs. auto.
Qed.

Lemma lift_Ok_inv {A} (r : result A) (s s1 : state C) (a : A) :
  lift r s = (Ok a, s1) -> r = Ok a /\ s1 = s.
Proof. unfold lift. intros [= -> ->]. auto. Qed.

End Inversion.

Section RiskFactors.
Import SEC.
Context `{X : Externals}.

Lemma dict_set_fresh {V} (k : string) (v : V) (d : list (string * V)) :
  k ∉ map fst d -> dict_set k v d = d ++ [(k, v)].
Proof.
  induction d as [|[k' v'] d IH]; cbn; [reflexivity|]. intros Hk.
  apply not_elem_of_cons in Hk. destruct Hk as [Hne Hk].
  destruct (String.eqb_spec k k') as [->|_]; [congruence|].
  rewrite IH by assumption. reflexivity.
Qed.

Lemma extract_body_Ok (url : string) (risk_factors : list (string * value))
  (ticker : string) (s : state call) (result : list (string * value)) :
  fst (extract_body url risk_factors ticker s) = Ok result ->
  exists section : value, result = dict_set ticker section risk_factors.
Proof.
  unfold extract_body, print. intros H.
  apply bind_Ok_inv in H. destruct H as (file & s1 & _ & _ & H).
  apply bind_Ok_inv in H. destruct H as (response & s2 & _ & _ & H).
  apply bind_Ok_inv in H. destruct H as (u & s3 & _ & _ & H).
  apply bind_Ok_inv in H. destruct H as (body & s4 & _ & _ & H).
  apply bind_Ok_inv in H. destruct H as (section & s5 & _ & _ & H).
  apply bind_Ok_inv in H. destruct H as (u' & s6 & _ & _ & H).
  apply bind_Ok_inv in H. destruct H as (u'' & s7 & _ & _ & H).
  cbn in H. injection H as <-. eauto.
Qed.

Lemma extract_loop_keys (url : string) (l : list string) :
  forall (acc : list (string * value)) (s : state call)
         (risk_factors : list (string * value)),
    NoDup (map fst acc ++ l) ->
    fst (for_fold (extract_body url) acc l s) = Ok risk_factors ->
    map fst risk_factors = map fst acc ++ l.
Proof.
  induction l as [|ticker l IH]; intros acc s risk_factors Hnd; cbn [for_fold].
  - intros [= <-]. rewrite app_nil_r. reflexivity.
  - change (bind (extract_body url acc ticker)
              (fun acc' => for_fold (extract_body url) acc' l) s)
      with ((extract_body url acc ticker ≫=
               fun acc' => for_fold (extract_body url) acc' l) s).
    intros H. apply bind_Ok_inv in H.
    destruct H as (acc' & s1 & Hbody & _ & H).
    destruct (extract_body_Ok url acc ticker s acc') as [section ->].
    { rewrite Hbody. reflexivity. }
    assert (Hfresh : ticker ∉ map fst acc).
    { apply NoDup_app in Hnd. destruct Hnd as (_ & Hdis & _).
      intros Hin. apply (Hdis ticker Hin). left. }
    rewrite dict_set_fresh in H by assumption.
    assert (Hnd' : NoDup (map fst (acc ++ [(ticker, section)]) ++ l)).
    { rewrite map_app. cbn. rewrite <- app_assoc. exact Hnd. }
    rewrite (IH _ _ _ Hnd' H), map_app. cbn. rewrite <- app_assoc.
    reflexivity.
Qed.

(** X10. When the loop that submits the filings does not raise, the
    dictionary of risk factors it has built has exactly one entry for each
    ticker, in the order of the tickers (which are all different). *)
Theorem risk_factors_for_each_ticker (url : string) (s : state call)
  (risk_factors : list (string * value)) :
  fst (cell_extract url s) = Ok risk_factors ->
  map fst risk_factors = tickers.
Proof.
  intros H. apply (extract_loop_keys url tickers [] s risk_factors); [|exact H].
  cbn [map app]. apply (bool_decide_unpack _). vm_compute. exact I.
Qed.

End RiskFactors.

Lemma risk_factors_for_each_ticker_witness :
  exists risk_factors : list (string * value),
    fst (SEC.cell_extract (X := SEC.demo) "https://api" initial)
    = Ok risk_factors /\
    map fst risk_factors = SEC.tickers.
Proof.
  eexists. split; [vm_compute; reflexivity|].
  apply (risk_factors_for_each_ticker (X := SEC.demo) "https://api" initial).
  vm_compute. reflexivity.
Defined.

Section Annotations.
Import SEC.
Context `{X : Externals}.

Lemma annotate_body_Ok (i : nat) (element : Staging.Element)
  (s : state call) (annotation : list Staging.LabelStudioAnnotation) :
  fst (annotate_body (i, element) s) = Ok annotation ->
  annotated_from element annotation.
Proof.
  unfold annotate_body, print. cbn [fst snd]. intros H.
  apply bind_Ok_inv in H. destruct H as (inference & s1 & Hcall & _ & H).
  apply extcall_Ok_inv in Hcall. destruct Hcall as [Hinfer _].
  apply bind_Ok_inv in H. destruct H as (first & s2 & Hfirst & _ & H).
  apply lift_Ok_inv in Hfirst. destruct Hfirst as [Hfirst _].
  apply bind_Ok_inv in H. destruct H as (u & s3 & _ & _ & H).
  cbn in H. injection H as <-.
  unfold list_item in Hfirst.
  destruct (inference !! 0) as [first'|] eqn:E0; [|discriminate].
  injection Hfirst as ->.
  exists (log s), inference, first. auto.
Qed.

Lemma annotate_loop_Ok (l : list (nat * Staging.Element)) :
  forall (acc : list (list Staging.LabelStudioAnnotation)) (s : state call)
         (annotations : list (list Staging.LabelStudioAnnotation)),
    fst (for_append annotate_body acc l s) = Ok annotations ->
    exists new,
      annotations = acc ++ new /\
      Forall2 annotated_from (map snd l) new.
Proof.
  induction l as [|[i element] l IH]; intros acc s annotations;
    cbn [for_append].
  - intros [= <-]. exists []. rewrite app_nil_r. split; [reflexivity|].
    constructor.
  - change (bind (annotate_body (i, element))
              (fun b => for_append annotate_body (acc ++ [b]) l) s)
      with ((annotate_body (i, element) ≫=
               fun b => for_append annotate_body (acc ++ [b]) l) s).
    intros H. apply bind_Ok_inv in H.
    destruct H as (annotation & s1 & Hbody & _ & H).
    destruct (IH _ _ _ H) as (new & -> & Hall).
    exists (annotation :: new). rewrite <- app_assoc.
    split; [reflexivity|]. cbn. constructor; [|exact Hall].
    apply (annotate_body_Ok i element s). rewrite Hbody. reflexivity.
Qed.

Lemma map_snd_enumerate {A} (l : list A) (start : nat) :
  map snd (enumerate start l) = l.
Proof.
  revert start. induction l as [|x l IH]; intros start; cbn; [reflexivity|].
  rewrite IH. reflexivity.
Qed.

(** X11. When the pre-annotation loop does not raise, it has built exactly
    one annotation for each element, in the order of the elements: a single
    "choices" result from "sentiment" to "text" whose only choice is the
    label that the sentiment pipeline answered first for the text of the
    element, in title case.  So the two lists given to
    [stage_for_label_studio] have the same length. *)
Theorem one_annotation_for_each_element (elements : list Staging.Element)
  (s : state call) (annotations : list (list Staging.LabelStudioAnnotation)) :
  fst (cell_annotate elements s) = Ok annotations ->
  Forall2 annotated_from elements annotations.
Proof.
  intros H. unfold cell_annotate in H.
  destruct (annotate_loop_Ok _ _ _ _ H) as (new & -> & Hall).
  rewrite map_snd_enumerate in Hall. exact Hall.
Qed.

End Annotations.

Lemma one_annotation_for_each_element_witness :
  exists annotations : list (list Staging.LabelStudioAnnotation),
    fst (SEC.cell_annotate (X := SEC.demo)
           [Elastic.demo_bad; Elastic.demo_fine] initial) = Ok annotations /\
    Forall2 (SEC.annotated_from (X := SEC.demo))
      [Elastic.demo_bad; Elastic.demo_fine] annotations.
Proof.
  eexists. split; [vm_compute; reflexivity|].
  apply (one_annotation_for_each_element (X := SEC.demo)
           [Elastic.demo_bad; Elastic.demo_fine] initial).
  vm_compute. reflexivity.
Defined.

(** ** Which exception the dataset cell raises *)

Section TrainingErrors.
Import SEC.

Lemma comprehension_first_error {A B} (f : A -> result B) (e : exn)
  (l : list A) :
  Forall (fun x => forall e', f x = Raise e' -> e' = e) l ->
  Exists (fun x => f x = Raise e) l ->
  comprehension f l = Raise e.
Proof.
  intros Hall Hex. induction Hex as [x l Hx|x l Hex IH].
  - cbn. rewrite Hx. reflexivity.
  - apply Forall_cons in Hall. destruct Hall as [Hx Hall].
    cbn. destruct (f x) as [b|e'] eqn:E.
    + cbn. rewrite (IH Hall). reflexivity.
    + cbn. rewrite (Hx e' eq_refl). reflexivity.
Qed.

Lemma getitem_error (item : dict) (k : string) (e : exn) :
  getitem item k = Raise e -> e = KeyError k.
Proof. unfold getitem. destruct (item !! k); [discriminate|congruence]. Qed.

Lemma label_of_error (item : dict) (e : exn) :
  label_of item = Raise e -> e = KeyError "sentiment".
Proof.
  unfold label_of, getitem, mbind, result_mbind, result_bind.
  destruct (item !! "sentiment"); [discriminate|congruence].
Qed.

(** X12. The dataset cell reads every [text] before any [sentiment]: when
    some item of the training data has no [text] it raises
    [KeyError("text")], whatever the sentiments are; when every item has a
    [text] and some item has no [sentiment] it raises
    [KeyError("sentiment")]; otherwise it returns the two columns, of the
    length of the training data. *)
Theorem training_columns_outcome (training_data : list dict) :
  (Exists (fun item => item !! "text" = None) training_data ->
   training_columns training_data = Raise (KeyError "text")) /\
  (Forall (fun item => is_Some (item !! "text")) training_data ->
   Exists (fun item => item !! "sentiment" = None) training_data ->
   training_columns training_data = Raise (KeyError "sentiment")) /\
  (Forall (fun item => is_Some (item !! "text")) training_data ->
   Forall (fun item => is_Some (item !! "sentiment")) training_data ->
   exists texts labels,
     training_columns training_data = Ok (texts, labels) /\
     length texts = length training_data /\
     length labels = length training_data).
Proof.
  split; [|split].
  - intros Hex. unfold training_columns.
    rewrite (comprehension_first_error (fun item => getitem item "text")
               (KeyError "text")); [reflexivity| |].
    + apply Forall_forall. intros item _ e. apply getitem_error.
    + eapply Exists_impl; [exact Hex|]. cbv beta. intros item Hn.
      unfold getitem. rewrite Hn. reflexivity.
  - intros Hall Hex. unfold training_columns.
    destruct (comprehension_total (fun item => getitem item "text")
                training_data) as [texts Ht].
    { eapply Forall_impl; [exact Hall|]. intros item [t Ht].
      exists t. unfold getitem. rewrite Ht. reflexivity. }
    rewrite Ht. cbn.
    rewrite (comprehension_first_error label_of (KeyError "sentiment"));
      [reflexivity| |].
    + apply Forall_forall. intros item _ e. apply label_of_error.
    + eapply Exists_impl; [exact Hex|]. cbv beta. intros item Hn.
      unfold label_of, getitem. rewrite Hn. reflexivity.
  - intros Ht Hs.
    destruct (comprehension_total (fun item => getitem item "text")
                training_data) as [texts Etexts].
    { eapply Forall_impl; [exact Ht|]. intros item [t Hi].
      exists t. unfold getitem. rewrite Hi. reflexivity. }
    destruct (comprehension_total label_of training_data) as [labels El].
    { eapply Forall_impl; [exact Hs|]. intros item [v Hv].
      eexists. unfold label_of, getitem. rewrite Hv. reflexivity. }
    exists texts, labels. unfold training_columns. rewrite Etexts. cbn.
    rewrite El. split; [reflexivity|].
    apply comprehension_Forall2 in Etexts, El.
    apply Forall2_length in Etexts, El. auto.
Qed.

End TrainingErrors.

Lemma training_columns_outcome_witness :
  SEC.training_columns
    [ <["text" := VStr "risk"]> ∅;
      <["sentiment" := VStr "Negative"]> ∅ ]
  = Raise (KeyError "text").
Proof.
  apply (proj1 (training_columns_outcome _)).
  apply Exists_cons_tl, Exists_cons_hd. reflexivity.
Defined.


(** ** What the fetch loop saves *)

Section Fetch.
Import SEC.
Context `{X : Externals}.

Lemma fetch_body_run (data_directory ticker : string) (s : state call) :
  fetch_body data_directory ticker s =
  let c := get_form_by_ticker_ ticker "10-K" "Unstructured Technologies"
             "support@unstructured.io" in
  let r := get_form_by_ticker (log s) ticker "10-K"
             "Unstructured Technologies" "support@unstructured.io" in
  let h := log s ++ [(c, outcome r)] in
  match r with
  | Raise e => (Raise e, State (heap s) (next s) h)
  | Ok form_text =>
      let filename := form_file data_directory ticker in
      let w := write h filename form_text in
      match w with
      | Raise e =>
          (Raise e, State (heap s) (next s)
                      (h ++ [(write_ filename form_text, Some e)]))
      | Ok _ =>
          (Ok tt, State (heap s) (next s)
                    (h ++ [(write_ filename form_text, None);
                           (print_ ".", None)]))
      end
  end.
Proof.
  unfold fetch_body, print, form_file. rewrite bind_unfold.
  unfold extcall at 1. cbn [log heap next].
  destruct (get_form_by_ticker (log s) ticker _ _ _) as [form_text|e];
    [|reflexivity].
  rewrite bind_unfold. unfold extcall at 1. cbn [log heap next outcome].
  destruct (write _ _ form_text) as [[]|e]; [|reflexivity].
  unfold extcall. cbn [log heap next outcome]. rewrite <- app_assoc.
  reflexivity.
Qed.

Lemma saved_app (h1 h2 : history) : saved (h1 ++ h2) = saved h1 ++ saved h2.
Proof. apply omap_app. Qed.

Lemma fetch_loop_saves (data_directory : string) (all : list string)
  (l : list string) :
  forall s : state call,
    (forall ticker, ticker ∈ l -> ticker ∈ all) ->
    exists new : history,
      log (snd (for_each (fetch_body data_directory) l s)) = log s ++ new /\
      Forall (fetched_form data_directory all) (saved new) /\
      (outcome (fst (for_each (fetch_body data_directory) l s)) = None ->
       map fst (saved new) = map (form_file data_directory) l).
Proof.
  induction l as [|ticker l IH]; intros s Hsub.
  - exists []. cbn. rewrite app_nil_r. auto.
  - cbn [for_each].
    change (bind (fetch_body data_directory ticker)
              (fun _ => for_each (fetch_body data_directory) l) s)
      with ((fetch_body data_directory ticker ≫=
               fun _ => for_each (fetch_body data_directory) l) s).
    rewrite bind_unfold, fetch_body_run. cbv zeta.
    destruct (get_form_by_ticker (log s) ticker _ _ _) as [form_text|e] eqn:Eg.
    2:{ eexists. cbn [fst snd log outcome]. split; [reflexivity|].
        split; [constructor|discriminate]. }
    cbn [outcome].
    assert (Hfile : fetched_form data_directory all
                      (form_file data_directory ticker, form_text)).
    { exists (log s), ticker. split; [apply Hsub; left|]. auto. }
    destruct (write _ _ form_text) as [[]|e] eqn:Ew.
    + match goal with |- context [for_each _ l ?s1] =>
        destruct (IH s1) as (new & Hlog & Hall & Hdone)
      end.
      { intros t Ht. apply Hsub. right. exact Ht. }
      eexists. split.
      * rewrite Hlog. cbn [log]. rewrite <- !app_assoc. reflexivity.
      * rewrite !saved_app. cbn. split; [constructor; assumption|].
        intros Hok. rewrite (Hdone Hok). reflexivity.
    + eexists. cbn [fst snd log outcome]. rewrite <- app_assoc.
      split; [reflexivity|]. split; [|discriminate].
      cbn. constructor; [assumption|constructor].
Qed.

(** X13. What the fetch loop saves is what it fetched: every file it
    writes is the file of one of the tickers, in the data directory, and
    holds the form that [get_form_by_ticker] answered for that ticker; and
    when the loop does not raise it has written one file for each ticker,
    in the order of the tickers. *)
Theorem fetch_saves_what_it_fetched (data_directory : string)
  (s : state call) :
  Forall (fetched_form data_directory tickers)
    (saved (journal (cell_fetch data_directory) s)) /\
  (outcome (fst (cell_fetch data_directory s)) = None ->
   map fst (saved (journal (cell_fetch data_directory) s))
   = map (form_file data_directory) tickers).
Proof.
  unfold cell_fetch.
  destruct (fetch_loop_saves data_directory tickers tickers s)
    as (new & Hlog & Hall & Hdone); [auto|].
  rewrite (journal_eq _ _ _ Hlog). auto.
Qed.

End Fetch.

Lemma fetch_saves_what_it_fetched_witness :
  length (SEC.saved (journal (SEC.cell_fetch (X := SEC.demo) "/data") initial))
  = 23%nat.
Proof.
  rewrite <- (length_map fst).
  rewrite (proj2 (fetch_saves_what_it_fetched (X := SEC.demo) "/data" initial)).
  - reflexivity.
  - vm_compute. reflexivity.
Defined.

(** ** Title case and the label of the training data *)

Section TitleCase.

Lemma lower_lower (c : Ascii.ascii) : lower (lower c) = lower c.
Proof. destruct c as [[] [] [] [] [] [] [] []]; reflexivity. Qed.

Lemma lower_upper (c : Ascii.ascii) : lower (upper c) = lower c.
Proof. destruct c as [[] [] [] [] [] [] [] []]; reflexivity. Qed.

Lemma upper_lower (c : Ascii.ascii) : upper (lower c) = upper c.
Proof. destruct c as [[] [] [] [] [] [] [] []]; reflexivity. Qed.

Lemma is_lower_lower (c : Ascii.ascii) :
  is_lower (lower c) = true -> is_letter c = true.
Proof. destruct c as [[] [] [] [] [] [] [] []]; vm_compute; auto. Qed.

Lemma lower_title_from (s : string) :
  forall b, lower_string (title_from b s) = lower_string s.
Proof.
  induction s as [|c s IH]; intros b; cbn; [reflexivity|].
  fold (is_letter c). destruct (is_letter c); cbn; rewrite IH.
  - destruct b; rewrite ?lower_lower, ?lower_upper; reflexivity.
  - reflexivity.
Qed.

Lemma title_from_letters (s : string) :
  string_forall is_lower (lower_string s) = true ->
  title_from true s = lower_string s /\
  title_from false s
  = match lower_string s with
    | EmptyString => EmptyString
    | String c s' => String (upper c) s'
    end.
Proof.
  induction s as [|c s IH]; cbn; [auto|]. intros H.
  apply andb_prop in H. destruct H as [Hc Hs].
  fold (is_letter c). rewrite (is_lower_lower c Hc).
  destruct (IH Hs) as [IHt _]. rewrite IHt, upper_lower. auto.
Qed.

Lemma title_is_Negative (l : string) :
  title l = "Negative" <-> lower_string l = "negative".
Proof.
  split; intros H.
  - rewrite <- (lower_title_from l false). fold (title l). rewrite H.
    reflexivity.
  - unfold title. destruct (title_from_letters l) as [_ Ht].
    + rewrite H. reflexivity.
    + rewrite Ht, H. reflexivity.
Qed.

(** X14. Title case makes the label of the training data independent of
    the letter case in which the sentiment pipeline spells its labels: an
    item whose [sentiment] is the title case of a label gets the label 0
    exactly when that label spells "negative", in whatever mix of upper and
    lower case, and the label 1 otherwise. *)
Theorem title_case_label (l : string) (item : dict) :
  item !! "sentiment" = Some (VStr (title l)) ->
  (SEC.label_of item = Ok 0%Z <-> lower_string l = "negative") /\
  (SEC.label_of item = Ok 1%Z <-> lower_string l <> "negative").
Proof.
  intros Hs. unfold SEC.label_of, getitem. rewrite Hs. cbn.
  rewrite <- title_is_Negative.
  destruct (String.eqb_spec (title l) "Negative") as [E|E].
  - split; split; intros H; try congruence; discriminate.
  - split; split; intros H; try congruence; try discriminate.
Qed.

End TitleCase.

Lemma title_case_label_witness :
  SEC.label_of (<["sentiment" := VStr (title "nEGATIVE")]> ∅) = Ok 0%Z
  <-> lower_string "nEGATIVE" = "negative".
Proof.
  refine (proj1 (title_case_label "nEGATIVE"
                   (<["sentiment" := VStr (title "nEGATIVE")]> ∅) _)).
  vm_compute. reflexivity.
Defined.

(** ** The filter on the categories *)

Section TextFilter.
Import Elastic.

Lemma prefix_spec (needle s : string) :
  String.prefix needle s = true <-> exists post, s = (needle ++ post)%string.
Proof.
  revert s. induction needle as [|c needle IH]; intros s; cbn.
  - split; [eauto|]. intros _. destruct s; reflexivity.
  - destruct s as [|c' s]; cbn.
    + split; [discriminate|]. intros [post H]. discriminate.
    + destruct (Ascii.ascii_dec c c') as [->|Hne].
      * rewrite IH. split.
      -- intros [post ->]. exists post. reflexivity.
      -- intros [post H]. injection H as ->. exists post. reflexivity.
      * split; [discriminate|]. intros [post H]. injection H as -> _.
        contradiction.
Qed.

Lemma contains_spec (needle s : string) :
  contains needle s = true <->
  exists pre post, s = (pre ++ needle ++ post)%string.
Proof.
  split.
  - induction s as [|c s IH]; cbn [contains].
    + destruct (String.prefix needle "") eqn:E; [|intros H; discriminate H].
      intros _. apply prefix_spec in E. destruct E as [post E].
      exists "", post. exact E.
    + destruct (String.prefix needle (String c s)) eqn:E.
      * intros _. apply prefix_spec in E. destruct E as [post E].
        exists "", post. exact E.
      * intros H. destruct (IH H) as (pre & post & ->).
        exists (String c pre), post. reflexivity.
  - intros (pre & post & ->). induction pre as [|c pre IH].
    + change (contains needle (needle ++ post)%string = true).
      assert (E : String.prefix needle (needle ++ post)%string = true)
        by (apply prefix_spec; eauto).
      revert E. generalize (needle ++ post)%string as s. intros s E.
      destruct s; cbn [contains]; rewrite E; reflexivity.
    + change (contains needle (String c (pre ++ needle ++ post)%string) = true).
      cbn [contains]. rewrite IH.
      destruct (String.prefix needle _); reflexivity.
Qed.

Lemma filter_sublist {A} (f : A -> bool) (l : list A) :
  sublist (List.filter f l) l.
Proof.
  induction l as [|x l IH]; cbn; [constructor|].
  destruct (f x); [apply sublist_skip|apply sublist_cons]; exact IH.
Qed.

(** X15. The elements kept for the index are the elements whose category
    has "Text" somewhere in its name, in the order in which the partition
    returned them: nothing is added, nothing is reordered, and an element
    is kept exactly when its category contains "Text". *)
Theorem text_elements_by_category (elements : list Staging.Element) :
  sublist (text_elements_of elements) elements /\
  forall element : Staging.Element,
    In element (text_elements_of elements) <->
    In element elements /\
    exists pre post : string,
      Staging.category element = (pre ++ "Text" ++ post)%string.
Proof.
  split; [apply filter_sublist|].
  intros element. unfold text_elements_of.
  rewrite filter_In, contains_spec. reflexivity.
Qed.

End TextFilter.

(** ** Hits with equal scores *)

Section Ties.
Import Elastic.
Context `{X : Externals}.

Lemma insert_by_filter (k : string) (P : dict -> bool) (x : dict)
  (l : list dict) :
  (forall a b, P a = true -> P b = true -> (score k a == score k b)%Q) ->
  List.filter P (insert_by k x l) = List.filter P (x :: l).
Proof.
  intros HP. induction l as [|y l IH]; [reflexivity|]. cbn [insert_by].
  destruct (float_lt (score k x) (score k y)) eqn:E; [|reflexivity].
  apply float_lt_spec in E.
  cbn [List.filter] in *. rewrite IH.
  destruct (P x) eqn:Ex, (P y) eqn:Ey; try reflexivity.
  exfalso. rewrite (HP x y Ex Ey) in E. revert E. apply Qlt_irrefl.
Qed.

Lemma sort_by_filter (k : string) (P : dict -> bool) (l : list dict) :
  (forall a b, P a = true -> P b = true -> (score k a == score k b)%Q) ->
  List.filter P (sort_by k l) = List.filter P l.
Proof.
  intros HP. induction l as [|x l IH]; [reflexivity|].
  change (sort_by k (x :: l)) with (insert_by k x (sort_by k l)).
  rewrite (insert_by_filter k P x _ HP). cbn [List.filter].
  rewrite IH. reflexivity.
Qed.

Lemma ties_scores (x a b : dict) :
  ties x a = true -> ties x b = true ->
  (score "polarity" a == score "polarity" b)%Q /\
  (score "subjectivity" a == score "subjectivity" b)%Q.
Proof.
  unfold ties. intros Ha Hb.
  apply andb_prop in Ha. destruct Ha as [Ha1 Ha2].
  apply andb_prop in Hb. destruct Hb as [Hb1 Hb2].
  apply float_eq_spec in Ha1, Ha2, Hb1, Hb2.
  rewrite Ha1, Ha2, Hb1, Hb2. split; reflexivity.
Qed.

(** X16. Hits that carry the same polarity and the same subjectivity
    come out of the query cell in the order in which the searches returned
    them, those of the search for "negative" before those of the search
    for "positive": the two sorts are stable, also with [reverse=True]. *)
Theorem ties_keep_response_order (s : state call) (hits : list dict)
  (x : dict) :
  fst (cell_query s) = Ok hits ->
  exists response_pos response : list dict,
    Search_execute (log s) "positive" = Ok response_pos /\
    Search_execute (log s ++ [(execute_ "positive", None)]) "negative"
    = Ok response /\
    List.filter (ties x) hits
    = List.filter (ties x) response ++ List.filter (ties x) response_pos.
Proof.
  unfold cell_query. intros H.
  apply bind_Ok_inv in H. destruct H as (response_pos & s1 & H1 & _ & H).
  apply extcall_Ok_inv in H1. destruct H1 as [H1 ->].
  apply bind_Ok_inv in H. destruct H as (response & s2 & H2 & _ & H).
  apply extcall_Ok_inv in H2. destruct H2 as [H2 ->]. cbn [log] in H2.
  exists response_pos, response. split; [exact H1|]. split; [exact H2|].
  unfold lift in H. cbn [fst] in H.
  pose proof (sorted_elements_Ok_numeric _ _ H) as Hnum.
  rewrite (sorted_elements_sort_by _ Hnum) in H. injection H as <-.
  rewrite !sort_by_filter.
  - apply List.filter_app.
  - intros a b Ha Hb. apply (ties_scores x a b Ha Hb).
  - intros a b Ha Hb. apply (ties_scores x a b Ha Hb).
Qed.

End Ties.

Lemma ties_keep_response_order_witness :
  exists response_pos response : list dict,
    @Elastic.Search_execute Elastic.demo_tied [] "positive"
    = Ok response_pos /\
    @Elastic.Search_execute Elastic.demo_tied
      ([] ++ [(Elastic.execute_ "positive", None)]) "negative"
    = Ok response /\
    List.filter (Elastic.ties (Elastic.hit (-1 # 2) (3 # 5) ""))
      [Elastic.hit (-1 # 4) 1 "n2"; Elastic.hit (1 # 2) (3 # 5) "p1";
       Elastic.hit (1 # 2) (3 # 5) "p3"; Elastic.hit (1 # 4) (3 # 5) "p2";
       Elastic.hit (-1 # 2) (3 # 5) "n1"; Elastic.hit (-1 # 2) (3 # 5) "n3"]
    = List.filter (Elastic.ties (Elastic.hit (-1 # 2) (3 # 5) "")) response ++
      List.filter (Elastic.ties (Elastic.hit (-1 # 2) (3 # 5) "")) response_pos.
Proof.
  refine (ties_keep_response_order (X := Elastic.demo_tied) initial _ _ _).
  vm_compute. reflexivity.
Defined.
